(** * OpenRouter free-model scraper: the normalizer and the entry point

    A shallow embedding of [src/main.py].  The pure part,
    [validate_and_clean_models], is embedded as a loop over the raw rows
    that threads the two local variables of the Python function
    ([validated_models] and [seen_models]).  The effectful part
    ([scrape_openrouter_models], [fetch_openrouter_api_models], [main])
    is embedded in a small trace-and-exception monad; the browser and the
    file system are an explicit [World] of outcomes.

    Strings are modelled over the code points U+0000..U+00FF, one [ascii]
    per code point; the character classes used by [str.strip],
    [str.lower] and the regular expression [\d] are the restrictions of
    Python's Unicode classes to that range. *)

From Stdlib Require Import ZArith Ascii String DecimalString DecimalPos.
From stdpp Require Import gmap strings list.

Set Warnings "-register-all".

Local Open Scope string_scope.
Local Open Scope list_scope.

(** ** Python strings *)

Module PyStr.

Definition code (c : ascii) : N := N_of_ascii c.

(** [str.isspace] on one character: U+0009..U+000D, U+001C..U+0020,
    U+0085 and U+00A0. *)
Definition isspace (c : ascii) : bool :=
  let n := code c in
  ((9 <=? n) && (n <=? 13) || (28 <=? n) && (n <=? 32)
   || (n =? 133) || (n =? 160))%N.

(** The class [\d] of [re] on a [str] pattern: decimal digits. *)
Definition isdigit (c : ascii) : bool :=
  let n := code c in ((48 <=? n) && (n <=? 57))%N.

(** [str.lower] on one character: A..Z and the upper-case letters of
    U+00C0..U+00DE (U+00D7 is the multiplication sign). *)
Definition lower_char (c : ascii) : ascii :=
  let n := code c in
  if ((65 <=? n) && (n <=? 90)
      || (192 <=? n) && (n <=? 222) && negb (n =? 215))%N
  then ascii_of_N (n + 32) else c.

Fixpoint lower (s : string) : string :=
  match s with
  | EmptyString => EmptyString
  | String c s' => String (lower_char c) (lower s')
  end.

Fixpoint lstrip (s : string) : string :=
  match s with
  | EmptyString => EmptyString
  | String c s' => if isspace c then lstrip s' else s
  end.

Fixpoint rstrip (s : string) : string :=
  match s with
  | EmptyString => EmptyString
  | String c s' =>
      match rstrip s' with
      | EmptyString => if isspace c then EmptyString else String c EmptyString
      | r => String c r
      end
  end.

(** [s.strip()] *)
Definition strip (s : string) : string := rstrip (lstrip s).

(** Truth value of a string: [bool(s)]. *)
Definition truthy (s : string) : bool :=
  match s with EmptyString => false | String _ _ => true end.

(** [a or b] on strings. *)
Definition py_or (a b : string) : string := if truthy a then a else b.

Fixpoint all_chars (p : ascii -> bool) (s : string) : bool :=
  match s with
  | EmptyString => true
  | String c s' => p c && all_chars p s'
  end.

Fixpoint some_char (p : ascii -> bool) (s : string) : bool :=
  match s with
  | EmptyString => false
  | String c s' => p c || some_char p s'
  end.

(** The longest prefix of digits: what the greedy [\d+] consumes. *)
Fixpoint take_digits (s : string) : string :=
  match s with
  | EmptyString => EmptyString
  | String c s' => if isdigit c then String c (take_digits s') else EmptyString
  end.

(** [re.search(r'(\d+)', s)], returning group 1 of the match: the scan
    starts a match at the leftmost position where [\d+] can match. *)
Fixpoint re_search_digits (s : string) : option string :=
  match s with
  | EmptyString => None
  | String c s' =>
      if isdigit c then Some (String c (take_digits s'))
      else re_search_digits s'
  end.

End PyStr.

Import PyStr.

(** ** Python values of the raw rows *)

(** The values a raw row can hold under a key.  Only [PyStr] has a
    [strip] method.  [PyObject repr] stands for any other object (a float,
    a list, a nested dict, ...): the normalizer can only apply [str] to
    it, which prints [repr]. *)
Inductive PyVal :=
| PyNone
| PyBool (b : bool)
| PyInt (z : Z)
| PyStr (s : string)
| PyObject (repr : string).

(** An element of the input list: a [dict] with string keys, or
    something that is not a [dict]. *)
Inductive RawRow :=
| RowDict (d : gmap string PyVal)
| RowOther (v : PyVal).

Inductive PyExn :=
| AttributeError
| TypeError
| OtherError.

(** [str(v)] *)
Definition py_str (v : PyVal) : string :=
  match v with
  | PyNone => "None"
  | PyBool true => "True"
  | PyBool false => "False"
  | PyInt z => NilZero.string_of_int (Z.to_int z)
  | PyStr s => s
  | PyObject repr => repr
  end.

(** [d.get(k, default)] *)
Definition dict_get (d : gmap string PyVal) (k : string) (dflt : PyVal) : PyVal :=
  default dflt (d !! k).

(** [v.strip()]: an attribute lookup that fails on everything but [str]. *)
Definition method_strip (v : PyVal) : PyExn + string :=
  match v with
  | PyStr s => inr (strip s)
  | _ => inl AttributeError
  end.

(** An emitted record: the dict with the keys ["model"], ["id"],
    ["context"]. *)
Record ModelRecord := mkRecord {
  rec_model : string;
  rec_id : string;
  rec_context : string
}.

Global Instance ModelRecord_eq_dec : EqDecision ModelRecord.
Proof. solve_decision. Defined.

(** ** The normalizer *)

(** The two locals of [validate_and_clean_models]. *)
Record LoopState := mkState {
  validated_models : list ModelRecord;
  seen_models : gset string
}.

Definition exn_bind {A B} (m : PyExn + A) (k : A -> PyExn + B) : PyExn + B :=
  match m with
  | inl e => inl e
  | inr a => k a
  end.

Notation "'let!' x ':=' m 'in' k" := (exn_bind m (fun x => k))
  (at level 10, x name, m at level 100, k at level 200, only parsing).

(** Lines 249-256: the cleaning of the context. *)
Definition clean_context (v : PyVal) : string :=
  let context := strip (py_str v) in
  if truthy context then
    match re_search_digits context with
    | Some group1 => group1
    | None => ""
    end
  else context.

(** One iteration of the [for model in models] loop; [continue] leaves
    the state as it is. *)
Definition loop_body (st : LoopState) (model : RawRow) : PyExn + LoopState :=
  match model with
  | RowOther _ => inr st
  | RowDict d =>
      let! model_name := method_strip (dict_get d "model" (PyStr "")) in
      let! model_id := method_strip (dict_get d "id" (PyStr "")) in
      if negb (truthy model_name) && negb (truthy model_id) then inr st
      else
        let model_key := lower (py_or model_id model_name) in
        if negb (truthy model_key) || bool_decide (model_key ∈ seen_models st)
        then inr st
        else
          let seen := seen_models st ∪ {[ model_key ]} in
          let context := clean_context (dict_get d "context" (PyStr "")) in
          inr {| validated_models :=
                   validated_models st
                   ++ [ {| rec_model := py_or model_name model_id;
                           rec_id := model_id;
                           rec_context := context |} ];
                 seen_models := seen |}
  end.

Fixpoint loop (models : list RawRow) (st : LoopState) : PyExn + LoopState :=
  match models with
  | [] => inr st
  | model :: rest => let! st' := loop_body st model in loop rest st'
  end.

Definition validate_and_clean_models (models : list RawRow)
  : PyExn + list ModelRecord :=
  let! st := loop models {| validated_models := []; seen_models := ∅ |} in
  inr (validated_models st).

(** A record read back as a raw row. *)
Definition to_row (r : ModelRecord) : RawRow :=
  RowDict {[ "model" := PyStr (rec_model r);
             "id" := PyStr (rec_id r);
             "context" := PyStr (rec_context r) ]}.

Definition scenario_A : list RawRow :=
  [ RowDict {[ "model" := PyStr "GPT-X"; "id" := PyStr "openai/gpt-x";
               "context" := PyStr "128,000" ]};
    RowDict {[ "model" := PyStr ""; "id" := PyStr "openai/gpt-x";
               "context" := PyStr "" ]} ].

(** The dedup key of a record: its lowercased id if the id is
    non-empty, else its lowercased model name. *)
Definition rec_key (r : ModelRecord) : string :=
  lower (py_or (rec_id r) (rec_model r)).

(** The record a row yields when it is the only row of the input. *)
Definition emitted_alone (row : RawRow) : option ModelRecord :=
  match validate_and_clean_models [row] with
  | inr [r] => Some r
  | _ => None
  end.

(** The trimmed context string of a dict row (line 249). *)
Definition row_context (d : gmap string PyVal) : string :=
  strip (py_str (dict_get d "context" (PyStr ""))).

(** [run] is the first maximal run of consecutive digits of [s]: no
    digit before it, and no digit right after it. *)
Definition first_maximal_digit_run (s run : string) : Prop :=
  exists pre post,
    s = pre +:+ run +:+ post /\
    some_char isdigit pre = false /\
    truthy run = true /\
    all_chars isdigit run = true /\
    (post = "" \/ exists c post', post = String c post' /\ isdigit c = false).

(** "First occurrence wins, in order of first appearance", on a list of
    candidates: the candidate at index [i] is kept exactly when its key
    does not occur at a smaller index. *)
Definition first_occurrences (cands : list ModelRecord) : list ModelRecord :=
  omap (fun i =>
          match cands !! i with
          | Some r =>
              if bool_decide (rec_key r ∈ rec_key <$> take i cands)
              then None else Some r
          | None => None
          end)
       (seq 0 (length cands)).

(** ** Definitions used to state and prove the properties of the normalizer *)

(** What a stripped string looks like at its ends. *)
Definition no_leading_space (s : string) : Prop :=
  match s with
  | EmptyString => True
  | String c _ => isspace c = false
  end.

(** What one row asks for, before the seen-set is consulted: an
    exception, nothing, or a record. *)
Definition row_record (row : RawRow) : PyExn + option ModelRecord :=
  match row with
  | RowOther _ => inr None
  | RowDict d =>
      let! model_name := method_strip (dict_get d "model" (PyStr "")) in
      let! model_id := method_strip (dict_get d "id" (PyStr "")) in
      if negb (truthy model_name) && negb (truthy model_id) then inr None
      else inr (Some {| rec_model := py_or model_name model_id;
                        rec_id := model_id;
                        rec_context :=
                          clean_context (dict_get d "context" (PyStr "")) |})
  end.

(** Appending a record to the state. *)
Definition push (st : LoopState) (r : ModelRecord) : LoopState :=
  {| validated_models := validated_models st ++ [r];
     seen_models := seen_models st ∪ {[ rec_key r ]} |}.

(** The loop invariant: [validated_models] holds the first occurrences
    of the candidates met so far, [seen_models] their keys. *)
Definition loop_inv (st : LoopState) (cands : list ModelRecord) : Prop :=
  validated_models st = first_occurrences cands /\
  forall k, k ∈ seen_models st <-> k ∈ rec_key <$> cands.

(** Rows whose ["model"] and ["id"] hold strings (or are absent). *)
Definition string_fields (row : RawRow) : Prop :=
  match row with
  | RowDict d =>
      (exists n, dict_get d "model" (PyStr "") = PyStr n) /\
      (exists i, dict_get d "id" (PyStr "") = PyStr i)
  | RowOther _ => True
  end.

(** Values without a [strip] method. *)
Definition not_a_string (v : PyVal) : Prop :=
  match v with
  | PyStr _ => False
  | _ => True
  end.

(** Records in normal form: a non-empty model, no surrounding
    whitespace in model and id, digits only in the context. *)
Definition normal_record (r : ModelRecord) : Prop :=
  truthy (rec_model r) = true /\
  strip (rec_model r) = rec_model r /\
  strip (rec_id r) = rec_id r /\
  all_chars isdigit (rec_context r) = true.

(** ** Inputs of the scenarios *)

Definition scenario_B : list RawRow :=
  [ RowDict {[ "model" := PyStr ""; "id" := PyStr "";
               "context" := PyStr "1000" ]} ].

Definition int_model_row : RawRow :=
  RowDict {[ "model" := PyInt 5; "id" := PyStr "openai/gpt-x" ]}.

Definition int_id_row : RawRow :=
  RowDict {[ "model" := PyStr "GPT-X"; "id" := PyInt 5 ]}.

Definition int_context_row : RawRow :=
  RowDict {[ "model" := PyStr "GPT-X"; "id" := PyStr "openai/gpt-x";
             "context" := PyInt 128000 ]}.

(** * The in-page extraction script (lines 117-191)

    The script is JavaScript run inside the page.  The DOM is modelled
    by the answers to the queries the script makes: the table, its body
    rows, the cells of a row, the first [a], [code] and [span] element
    inside a cell, and the two text properties of an element.  On the
    code points modelled here [String.prototype.toLowerCase] agrees with
    [lower], and the truth value of a string and [||] on strings agree
    with [truthy] and [py_or]. *)

(** The white space and line terminators that [String.prototype.trim]
    removes: U+0009..U+000D, U+0020 and U+00A0. *)
Definition js_whitespace (c : ascii) : bool :=
  let n := code c in
  ((9 <=? n) && (n <=? 13) || (n =? 32) || (n =? 160))%N.

Fixpoint js_trim_start (s : string) : string :=
  match s with
  | EmptyString => EmptyString
  | String c s' => if js_whitespace c then js_trim_start s' else s
  end.

Fixpoint js_trim_end (s : string) : string :=
  match s with
  | EmptyString => EmptyString
  | String c s' =>
      match js_trim_end s' with
      | EmptyString =>
          if js_whitespace c then EmptyString else String c EmptyString
      | r => String c r
      end
  end.

(** [s.trim()] *)
Definition js_trim (s : string) : string := js_trim_end (js_trim_start s).

(** [s.replace(/,/g, '')] *)
Fixpoint remove_commas (s : string) : string :=
  match s with
  | EmptyString => EmptyString
  | String c s' =>
      if Ascii.eqb c "," then remove_commas s' else String c (remove_commas s')
  end.

(** An element: [innerText] and [textContent], [None] when the property
    is [undefined] or [null]. *)
Record Element := mkElement {
  innerText : option string;
  textContent : option string
}.

(** A cell: what [querySelector] finds in it for ['a'], ['code'] and
    ['span']. *)
Record Cell := mkCell {
  query_a : option Element;
  query_code : option Element;
  query_span : option Element
}.

(** [el.innerText?.trim() || el.textContent?.trim() || ''] *)
Definition element_text (el : Element) : string :=
  py_or (default "" (js_trim <$> innerText el))
        (py_or (default "" (js_trim <$> textContent el)) "").

(** The two locals of the script. *)
Record JsState := mkJsState {
  js_models : list ModelRecord;
  js_seenModels : gset string
}.

(** The body of [rows.forEach]; [cells] is [row.querySelectorAll('td')]. *)
Definition for_each_row (st : JsState) (cells : list Cell) : JsState :=
  if (length cells <? 4)%nat then st
  else
    match cells !! 0%nat, cells !! 3%nat with
    | Some firstCell, Some contextCell =>
        let modelName :=
          match query_a firstCell with
          | Some nameLink => element_text nameLink
          | None => ""
          end in
        let modelId :=
          match query_code firstCell with
          | Some codeElement => element_text codeElement
          | None => ""
          end in
        let modelName :=
          if negb (truthy modelName) && truthy modelId then modelId
          else modelName in
        let context :=
          match query_span contextCell with
          | Some contextSpan =>
              js_trim (remove_commas (element_text contextSpan))
          | None => ""
          end in
        let modelKey := lower (py_or modelId modelName) in
        if truthy modelKey && negb (bool_decide (modelKey ∈ js_seenModels st))
        then
          {| js_models :=
               js_models st
               ++ [ {| rec_model := py_or modelName (py_or modelId "");
                       rec_id := py_or modelId "";
                       rec_context := py_or context "" |} ];
             js_seenModels := js_seenModels st ∪ {[ modelKey ]} |}
        else st
    | _, _ => st
    end.

(** The script: [document] is [None] when the page has no table, and
    the list of the body rows of its first table otherwise. *)
Definition extract_models (document : option (list (list Cell)))
  : list ModelRecord :=
  match document with
  | None => []
  | Some rows =>
      js_models
        (fold_left for_each_row rows
                   {| js_models := []; js_seenModels := ∅ |})
  end.

(** What the Python side receives from [page.evaluate]: one dict of
    strings for each object of the script. *)
Definition js_result (document : option (list (list Cell))) : list RawRow :=
  to_row <$> extract_models document.

(** The object a row asks the script to push, before the set of seen
    keys is consulted. *)
Definition row_object (cells : list Cell) : option ModelRecord :=
  match for_each_row {| js_models := []; js_seenModels := ∅ |} cells with
  | {| js_models := [r] |} => Some r
  | _ => None
  end.

(** The context text the script computes from the fourth cell. *)
Definition cell_context (contextCell : Cell) : string :=
  match query_span contextCell with
  | Some contextSpan => js_trim (remove_commas (element_text contextSpan))
  | None => ""
  end.

(** What the normalizer does to a record whose model and id are already
    stripped: it cleans the context. *)
Definition clean_record (r : ModelRecord) : ModelRecord :=
  {| rec_model := rec_model r;
     rec_id := rec_id r;
     rec_context := clean_context (PyStr (rec_context r)) |}.

(** The invariant of [rows.forEach]: [models] holds the first
    occurrences of the objects asked for so far, [seenModels] their keys. *)
Definition js_inv (st : JsState) (cands : list ModelRecord) : Prop :=
  js_models st = first_occurrences cands /\
  forall k, k ∈ js_seenModels st <-> k ∈ rec_key <$> cands.

(** A table of the listing page with two rows for the same model, the
    second without a link text, and a short row. *)
Definition text_element (text : string) : Element :=
  {| innerText := Some text; textContent := Some text |}.

Definition empty_cell : Cell :=
  {| query_a := None; query_code := None; query_span := None |}.

Definition listing_row (name id context : string) : list Cell :=
  [ {| query_a := Some (text_element name);
       query_code := Some (text_element id);
       query_span := None |};
    empty_cell; empty_cell;
    {| query_a := None; query_code := None;
       query_span := Some (text_element context) |} ].

Definition listing_page : option (list (list Cell)) :=
  Some [ listing_row " GPT-X " "openai/gpt-x" "128,000";
         listing_row "" "OpenAI/GPT-X" "64,000";
         [empty_cell; empty_cell];
         listing_row "Llama" "" " 8,192 " ].

Definition is_comma (c : ascii) : bool := Ascii.eqb c ",".

Definition digit_or_comma (c : ascii) : bool := isdigit c || is_comma c.

(** * The effectful part: scraper, fetcher and entry point *)

Definition CDP_ENDPOINT : string := "http://localhost:9222".
Definition OPENROUTER_URL : string :=
  "https://openrouter.ai/models?fmt=table&input_modalities=text&order=newest&output_modalities=text&q=%3Afree".
Definition OPENROUTER_API_URL : string :=
  "https://openrouter.ai/api/v1/models?use_rss=true".
Definition OUTPUT_DIR : string := "data".
(* [os.path.join(OUTPUT_DIR, name)], with the separator of a POSIX system *)
Definition OUTPUT_FILE : string := "data/openrouter-free-text-to-text.json".
Definition OUTPUT_MODELS_FILE : string := "data/openrouter-models.json".
Definition PAGE_LOAD_WAIT_TIME : nat := 5.

(** A parsed JSON document, as [json.loads] returns it; the items of an
    object are listed with one entry per key. *)
Inductive Json :=
| JNull
| JBool (b : bool)
| JNum (z : Z)
| JStr (s : string)
| JArr (items : list Json)
| JObj (items : list (string * Json)).

(** [bool(j)] *)
Definition json_truthy (j : Json) : bool :=
  match j with
  | JNull => false
  | JBool b => b
  | JNum z => negb (z =? 0)%Z
  | JStr s => truthy s
  | JArr items => match items with [] => false | _ => true end
  | JObj items => match items with [] => false | _ => true end
  end.

Fixpoint assoc (k : string) (items : list (string * Json)) : option Json :=
  match items with
  | [] => None
  | (k', v) :: rest => if String.eqb k k' then Some v else assoc k rest
  end.

Inductive Level := DEBUG | INFO | SUCCESS | WARNING | ERROR.

(** One constructor per logging call of the source, with the values its
    format string prints (exception texts are left out).  The trace keeps
    the calls of the logger, whatever level the sink shows. *)
Inductive Msg :=
| MsgConnecting (endpoint : string)         (* line 46 *)
| MsgNoContexts                             (* line 51 *)
| MsgExistingPage                           (* line 62 *)
| MsgNewPage                                (* line 65 *)
| MsgConnectFailed                          (* line 71 *)
| MsgConnectHint                            (* line 72 *)
| MsgCannotConnect                          (* lines 97, 280 *)
| MsgVisiting (url : string)                (* lines 100, 283 *)
| MsgGotoFailed                             (* lines 105, 288 *)
| MsgFoundRows                              (* line 111 *)
| MsgNoTable                                (* line 113 *)
| MsgExtracting                             (* line 116 *)
| MsgExtracted (n : nat)                    (* line 196 *)
| MsgJsEmpty                                (* line 198 *)
| MsgScrapeError                            (* line 202 *)
| MsgTraceback                              (* lines 204, 310, 394 *)
| MsgStopFailed                             (* lines 212, 317 *)
| MsgTotalExtracted (n : nat)               (* line 214 *)
| MsgNoContent                              (* line 295 *)
| MsgApiFetched                             (* line 301 *)
| MsgJsonError                              (* line 304 *)
| MsgFetchError                             (* line 308 *)
| MsgRule                                   (* the lines of "=" *)
| MsgStart                                  (* line 324 *)
| MsgNoModels                               (* line 330 *)
| MsgSaved (n : nat) (path : string)        (* line 340 *)
| MsgSaveFailed                             (* line 342 *)
| MsgStatsHeader                            (* line 347 *)
| MsgTotal (n : nat)                        (* line 348 *)
| MsgWithId (n : nat)                       (* line 351 *)
| MsgWithContext (n : nat)                  (* line 352 *)
| MsgPreviewHeader                          (* line 357 *)
| MsgPreviewName (i : nat) (name : string)  (* line 359 *)
| MsgPreviewId (id : string)                (* line 362 *)
| MsgPreviewContext (context : string)      (* line 365 *)
| MsgApiStart                               (* line 369 *)
| MsgApiSaved (path : string)               (* line 381 *)
| MsgApiCount (n : nat)                     (* line 382 *)
| MsgApiSaveFailed                          (* line 384 *)
| MsgNoApiData                              (* line 386 *)
| MsgMainFailed.                            (* line 392 *)

(** What [json.dump] is given. *)
Inductive Payload :=
| PRecords (models : list ModelRecord)
| PJson (j : Json).

(** The observable actions of a run, in order.  The events of the
    browser and [EvMakedirs] record that the call was made, whether it
    returns or raises; [EvOpen] and [EvDump] record the completed effect
    on the file. *)
Inductive Event :=
| EvLog (lvl : Level) (msg : Msg)
| EvStart                                   (* async_playwright().start() *)
| EvConnectOverCdp (endpoint : string)
| EvNewPage
| EvGoto (url : string)
| EvSleep (seconds : nat)
| EvWaitForSelector
| EvEvaluate
| EvStop                                    (* playwright.stop() *)
| EvMakedirs (dir : string)
| EvOpen (path : string)                    (* open(path, "w"): created or truncated *)
| EvDump (path : string) (p : Payload).     (* json.dump completed *)

(** What the browser does during one automation session; [true] means
    the call returns, [false] that it raises. *)
Record Session (R : Type) := mkSession {
  start_ok : bool;
  connect_over_cdp_ok : bool;
  has_contexts : bool;
  has_open_page : bool;
  new_page_ok : bool;
  goto_ok : bool;
  wait_for_selector_ok : bool;
  evaluate_result : option R;                (* [None]: evaluate raises *)
  stop_ok : bool
}.

Arguments start_ok {R}.
Arguments connect_over_cdp_ok {R}.
Arguments has_contexts {R}.
Arguments has_open_page {R}.
Arguments new_page_ok {R}.
Arguments goto_ok {R}.
Arguments wait_for_selector_ok {R}.
Arguments evaluate_result {R}.
Arguments stop_ok {R}.

(** The world of one run: the scraper's session (its in-page script
    returns the rows), the fetcher's session (its in-page script returns
    the body text), and the file system. *)
Record World := mkWorld {
  scrape_session : Session (list RawRow);
  fetch_session : Session string;
  makedirs_ok : bool;
  open_records_ok : bool;
  dump_records_ok : bool;
  open_api_ok : bool;
  dump_api_ok : bool
}.

(** What ends a computation early: an exception below [Exception], or
    [SystemExit], which [except Exception] does not catch. *)
Inductive Raised :=
| Exc (e : PyExn)
| SystemExit (code : Z).

(** Computations: the events so far, and a value or what was raised. *)
Definition M (A : Type) : Type := list Event * (Raised + A).

Definition ret {A} (a : A) : M A := ([], inr a).

Definition bind {A B} (m : M A) (k : A -> M B) : M B :=
  match m with
  | (t, inl e) => (t, inl e)
  | (t, inr a) => let (t', r) := k a in (t ++ t', r)
  end.

Notation "'do!' x ':=' m 'in' k" := (bind m (fun x => k))
  (at level 10, x name, m at level 100, k at level 200, only parsing).
Notation "m ';;' k" := (bind m (fun _ => k))
  (at level 100, k at level 200, right associativity, only parsing).

Definition emit (e : Event) : M unit := ([e], inr tt).
Definition log (lvl : Level) (msg : Msg) : M unit := emit (EvLog lvl msg).
Definition raise {A} (r : Raised) : M A := ([], inl r).
Definition sys_exit {A} (code : Z) : M A := raise (SystemExit code).

(** An external call: the event, then the outcome. *)
Definition call (e : Event) (ok : bool) : M unit :=
  emit e ;; if ok then ret tt else raise (Exc OtherError).

(** [try: m except Exception as e: h e] *)
Definition try_except {A} (m : M A) (h : PyExn -> M A) : M A :=
  match m with
  | (t, inl (Exc e)) => let (t', r) := h e in (t ++ t', r)
  | _ => m
  end.

(** [try: m finally: f]; what [f] raises replaces the outcome of [m]. *)
Definition try_finally {A} (m : M A) (f : M unit) : M A :=
  let (t, r) := m in
  match f with
  | (t', inl e) => (t ++ t', inl e)
  | (t', inr _) => (t ++ t', r)
  end.

Definition lift_exn {A} (x : PyExn + A) : M A :=
  match x with
  | inl e => raise (Exc e)
  | inr a => ret a
  end.

Definition trace {A} (m : M A) : list Event := fst m.
Definition outcome {A} (m : M A) : Raised + A := snd m.

(** The exit status of the process that runs [m] as its program. *)
Definition exit_code {A} (m : M A) : Z :=
  match outcome m with
  | inr _ => 0
  | inl (SystemExit code) => code
  | inl (Exc _) => 1
  end.

(** How a [try] block is left: by a [return], or by running off its end. *)
Inductive Flow (A B : Type) :=
| Return (a : A)
| FallThrough (b : B).
Arguments Return {A B}.
Arguments FallThrough {A B}.

(** [connect_to_browser]: [true] for the tuple of handles, [false] for
    the tuple of [None]. *)
Definition connect_to_browser {R} (s : Session R) : M bool :=
  let on_exception (playwright : bool) (_ : PyExn) : M bool :=
    log ERROR MsgConnectFailed ;;
    log ERROR MsgConnectHint ;;
    (if playwright
     then try_except (call EvStop (stop_ok s)) (fun _ => ret tt)
     else ret tt) ;;
    ret false in
  try_except
    (log INFO (MsgConnecting CDP_ENDPOINT) ;;
     call EvStart (start_ok s) ;;
     (* from here on [playwright] is set *)
     try_except
       (call (EvConnectOverCdp CDP_ENDPOINT) (connect_over_cdp_ok s) ;;
        if negb (has_contexts s) then
          log ERROR MsgNoContexts ;;
          call EvStop (stop_ok s) ;;
          ret false
        else
          (if has_open_page s then log INFO MsgExistingPage
           else call EvNewPage (new_page_ok s) ;; log INFO MsgNewPage) ;;
          ret true)
       (on_exception true))
    (on_exception false).

(** [scrape_openrouter_models].  The call of [connect_to_browser] stands
    before the [try] here: it raises nothing (its own handler catches
    every exception), and its result tells whether [playwright] is set
    when the [finally] clause runs. *)
Definition scrape_openrouter_models (w : World) : M (list ModelRecord) :=
  let s := scrape_session w in
  do! connected := connect_to_browser s in
  do! flow :=
    try_finally
      (try_except
         (if negb connected then
            log ERROR MsgCannotConnect ;; ret (Return [])
          else
            log INFO (MsgVisiting OPENROUTER_URL) ;;
            try_except
              (call (EvGoto OPENROUTER_URL) (goto_ok s) ;;
               emit (EvSleep PAGE_LOAD_WAIT_TIME))
              (fun e => log ERROR MsgGotoFailed ;; raise (Exc e)) ;;
            try_except
              (call EvWaitForSelector (wait_for_selector_ok s) ;;
               log DEBUG MsgFoundRows)
              (fun _ => log WARNING MsgNoTable) ;;
            log INFO MsgExtracting ;;
            emit EvEvaluate ;;
            do! js_result :=
              match evaluate_result s with
              | Some rows => ret rows
              | None => raise (Exc OtherError)
              end in
            match js_result with
            | _ :: _ =>
                do! models := lift_exn (validate_and_clean_models js_result) in
                log INFO (MsgExtracted (length models)) ;;
                ret (FallThrough models)
            | [] => log WARNING MsgJsEmpty ;; ret (Return [])
            end)
         (fun _ =>
            log ERROR MsgScrapeError ;;
            log ERROR MsgTraceback ;;
            ret (Return [])))
      (if connected
       then try_except (call EvStop (stop_ok s))
                       (fun _ => log WARNING MsgStopFailed)
       else ret tt) in
  match flow with
  | Return models => ret models
  | FallThrough models =>
      log INFO (MsgTotalExtracted (length models)) ;; ret models
  end.

(** [with open(path, "w") as f: json.dump(payload, f)] *)
Definition write_json (path : string) (p : Payload) (open_ok dump_ok : bool)
  : M unit :=
  (if open_ok then emit (EvOpen path) else raise (Exc OtherError)) ;;
  (if dump_ok then emit (EvDump path p) else raise (Exc OtherError)).

(** [api_models.get("data", [])] *)
Definition get_data (api_models : Json) : M Json :=
  match api_models with
  | JObj items => ret (default (JArr []) (assoc "data" items))
  | _ => raise (Exc AttributeError)
  end.

(** [len(data_list)] *)
Definition py_len (data_list : Json) : M nat :=
  match data_list with
  | JArr items => ret (length items)
  | JObj items => ret (length items)
  | JStr s => ret (String.length s)
  | _ => raise (Exc TypeError)
  end.

(** Lines 356-365: the preview of the first three models. *)
Fixpoint log_preview (i : nat) (models : list ModelRecord) : M unit :=
  match models with
  | [] => ret tt
  | model :: rest =>
      log INFO (MsgPreviewName i (rec_model model)) ;;
      (if truthy (rec_id model)
       then log INFO (MsgPreviewId (rec_id model)) else ret tt) ;;
      (if truthy (rec_context model)
       then log INFO (MsgPreviewContext (rec_context model)) else ret tt) ;;
      log_preview (S i) rest
  end.

Definition count_if (p : ModelRecord -> bool) (models : list ModelRecord) : nat :=
  length (filter (fun m => p m = true) models).

Section WithJson.

Variable json_loads : string -> option Json.  (* [None]: JSONDecodeError *)

(** [fetch_openrouter_api_models]; [{}] is [JObj []]. *)
Definition fetch_openrouter_api_models (w : World) : M Json :=
  let s := fetch_session w in
  do! connected := connect_to_browser s in
  try_finally
    (try_except
       (if negb connected then
          log ERROR MsgCannotConnect ;; ret (JObj [])
        else
          log INFO (MsgVisiting OPENROUTER_API_URL) ;;
          try_except
            (call (EvGoto OPENROUTER_API_URL) (goto_ok s) ;;
             emit (EvSleep 2))
            (fun e => log ERROR MsgGotoFailed ;; raise (Exc e)) ;;
          emit EvEvaluate ;;
          do! content :=
            match evaluate_result s with
            | Some text => ret text
            | None => raise (Exc OtherError)
            end in
          if negb (truthy content) then
            log ERROR MsgNoContent ;; ret (JObj [])
          else
            match json_loads content with
            | Some api_data => log INFO MsgApiFetched ;; ret api_data
            | None => log ERROR MsgJsonError ;; ret (JObj [])
            end)
       (fun _ =>
          log ERROR MsgFetchError ;;
          log ERROR MsgTraceback ;;
          ret (JObj [])))
    (if connected
     then try_except (call EvStop (stop_ok s))
                     (fun _ => log WARNING MsgStopFailed)
     else ret tt).

(** [main].  The handler of [KeyboardInterrupt] is left out: no call of
    this model raises it. *)
Definition main (w : World) : M unit :=
  try_except
    (log INFO MsgRule ;; log INFO MsgStart ;; log INFO MsgRule ;;
     do! models := scrape_openrouter_models w in
     (match models with
      | [] => log WARNING MsgNoModels ;; sys_exit 1
      | _ :: _ => ret tt
      end) ;;
     try_except
       (call (EvMakedirs OUTPUT_DIR) (makedirs_ok w) ;;
        write_json OUTPUT_FILE (PRecords models)
                   (open_records_ok w) (dump_records_ok w) ;;
        log SUCCESS (MsgSaved (length models) OUTPUT_FILE))
       (fun _ => log ERROR MsgSaveFailed ;; sys_exit 1) ;;
     log INFO MsgRule ;; log INFO MsgStatsHeader ;;
     log INFO (MsgTotal (length models)) ;;
     log INFO (MsgWithId (count_if (fun m => truthy (rec_id m)) models)) ;;
     log INFO (MsgWithContext (count_if (fun m => truthy (rec_context m)) models)) ;;
     log INFO MsgRule ;;
     (match models with
      | [] => ret tt
      | _ :: _ => log INFO MsgPreviewHeader ;; log_preview 1 (take 3 models)
      end) ;;
     log INFO MsgRule ;; log INFO MsgApiStart ;; log INFO MsgRule ;;
     do! api_models := fetch_openrouter_api_models w in
     if json_truthy api_models then
       try_except
         (write_json OUTPUT_MODELS_FILE (PJson api_models)
                     (open_api_ok w) (dump_api_ok w) ;;
          do! data_list := get_data api_models in
          log SUCCESS (MsgApiSaved OUTPUT_MODELS_FILE) ;;
          do! n := py_len data_list in
          log INFO (MsgApiCount n))
         (fun _ => log ERROR MsgApiSaveFailed)
     else
       log WARNING MsgNoApiData)
    (fun _ =>
       log ERROR MsgMainFailed ;;
       log ERROR MsgTraceback ;;
       sys_exit 1).

End WithJson.

(** ** Predicates on traces *)

(** [only P m]: every event of [m] satisfies [P]. *)
Definition only (P : Event -> Prop) {A} (m : M A) : Prop :=
  Forall P (trace m).

(** The events of an automation session that visits [url]. *)
Definition session_event (url : string) (e : Event) : Prop :=
  match e with
  | EvLog _ msg =>
      match msg with
      | MsgApiStart | MsgApiSaved _ | MsgApiCount _ | MsgApiSaveFailed
      | MsgNoApiData | MsgSaved _ _ | MsgSaveFailed | MsgNoModels => False
      | _ => True
      end
  | EvGoto u => u = url
  | EvMakedirs _ | EvOpen _ | EvDump _ _ => False
  | _ => True
  end.

Definition preview_event (e : Event) : Prop :=
  match e with
  | EvLog INFO (MsgPreviewName _ _ | MsgPreviewId _ | MsgPreviewContext _) =>
      True
  | _ => False
  end.

(** What a run shows before it touches a file or the API: no file
    event, no visit of the API URL, no message of the API stage. *)
Definition no_file_no_api (e : Event) : Prop :=
  match e with
  | EvLog _ msg =>
      match msg with
      | MsgApiStart | MsgApiSaved _ | MsgApiCount _ | MsgApiSaveFailed
      | MsgNoApiData | MsgSaved _ _ | MsgSaveFailed => False
      | _ => True
      end
  | EvGoto u => u <> OPENROUTER_API_URL
  | EvMakedirs _ | EvOpen _ | EvDump _ _ => False
  | _ => True
  end.

Definition is_start (e : Event) : bool :=
  match e with EvStart => true | _ => false end.

(** The number of automation sessions a trace starts. *)
Definition starts (t : list Event) : nat := length (List.filter is_start t).

(** The events of a run that does not write the API payload file. *)
Definition no_api_write (e : Event) : Prop :=
  match e with
  | EvLog _ (MsgApiCount _) | EvLog _ (MsgApiSaved _) => False
  | EvOpen path | EvDump path _ => path <> OUTPUT_MODELS_FILE
  | _ => True
  end.

(** What a dump event of a run of [main] may be: the record file with
    the non-empty list the scraper returned, or the API payload file with
    the truthy document the fetcher returned. *)
Definition dump_of_results (json_loads : string -> option Json) (w : World)
    (e : Event) : Prop :=
  match e with
  | EvDump path p =>
      (path = OUTPUT_FILE /\
       exists models, p = PRecords models /\ models <> [] /\
         outcome (scrape_openrouter_models w) = inr models) \/
      (path = OUTPUT_MODELS_FILE /\
       exists j, p = PJson j /\ json_truthy j = true /\
         outcome (fetch_openrouter_api_models json_loads w) = inr j)
  | _ => True
  end.

(** The payloads on which the count of lines 380-382 raises: those
    without a [get] method, and the objects whose ["data"] has no
    length. *)
Definition count_raises (api_models : Json) : bool :=
  match api_models with
  | JObj items =>
      match default (JArr []) (assoc "data" items) with
      | JArr _ | JObj _ | JStr _ => false
      | _ => true
      end
  | _ => true
  end.

(** The sessions in which [connect_to_browser] obtains a page. *)
Definition connects {R} (s : Session R) : bool :=
  start_ok s && connect_over_cdp_ok s && has_contexts s
  && (has_open_page s || new_page_ok s).

(** ** Worlds of the scenarios *)

(** A session in which every call returns. *)
Definition ok_session {R} (result : R) : Session R :=
  {| start_ok := true; connect_over_cdp_ok := true; has_contexts := true;
     has_open_page := true; new_page_ok := true; goto_ok := true;
     wait_for_selector_ok := true; evaluate_result := Some result;
     stop_ok := true |}.

(** The text [{"data": [1, 2]}]. *)
Definition data_document : string :=
  "{" +:+ String "034" "data" +:+ String "034" ": [1, 2]}".

(** A parser that knows three documents and rejects every other text. *)
Definition toy_json_loads (text : string) : option Json :=
  if String.eqb text "{}" then Some (JObj [])
  else if String.eqb text "[1, 2]" then Some (JArr [JNum 1; JNum 2])
  else if String.eqb text data_document
       then Some (JObj [("data", JArr [JNum 1; JNum 2])])
  else None.

(** Scenario D: the table yields one record, the API body is not JSON,
    every file operation succeeds. *)
Definition world_D : World :=
  {| scrape_session := ok_session scenario_A;
     fetch_session := ok_session "<html>Bad Gateway</html>";
     makedirs_ok := true; open_records_ok := true; dump_records_ok := true;
     open_api_ok := true; dump_api_ok := true |}.

(** A world whose table yields no row. *)
Definition world_C : World :=
  {| scrape_session := ok_session [];
     fetch_session := ok_session data_document;
     makedirs_ok := true; open_records_ok := true; dump_records_ok := true;
     open_api_ok := true; dump_api_ok := true |}.

(** Worlds in which one file operation fails: the dump of the record
    file, and the dump of the API payload file. *)
Definition world_records_dump_fails : World :=
  {| scrape_session := ok_session scenario_A;
     fetch_session := ok_session data_document;
     makedirs_ok := true; open_records_ok := true; dump_records_ok := false;
     open_api_ok := true; dump_api_ok := true |}.

Definition world_api_dump_fails : World :=
  {| scrape_session := ok_session scenario_A;
     fetch_session := ok_session data_document;
     makedirs_ok := true; open_records_ok := true; dump_records_ok := true;
     open_api_ok := true; dump_api_ok := false |}.

(** Worlds in which every call succeeds: the API body is the document
    [{"data": [1, 2]}], and the array [[1, 2]]. *)
Definition world_ok : World :=
  {| scrape_session := ok_session scenario_A;
     fetch_session := ok_session data_document;
     makedirs_ok := true; open_records_ok := true; dump_records_ok := true;
     open_api_ok := true; dump_api_ok := true |}.

Definition world_array_payload : World :=
  {| scrape_session := ok_session scenario_A;
     fetch_session := ok_session "[1, 2]";
     makedirs_ok := true; open_records_ok := true; dump_records_ok := true;
     open_api_ok := true; dump_api_ok := true |}.

(** * Properties of the string operations *)

Section StringFacts.

Lemma isdigit_not_space c : isdigit c = true -> isspace c = false.
Proof.
  destruct c as [[] [] [] [] [] [] [] []]; vm_compute; congruence.
Qed.

Lemma truthy_false s : truthy s = false <-> s = "".
Proof. destruct s; simpl; split; congruence. Qed.

Lemma truthy_lower s : truthy (lower s) = truthy s.
Proof. by destruct s. Qed.

Lemma py_or_empty_r s : py_or s "" = s.
Proof. by destruct s. Qed.

Lemma py_or_absorb a b : py_or a (py_or b a) = py_or a b.
Proof. destruct a; simpl; [apply py_or_empty_r | done]. Qed.

Lemma truthy_py_or a b : truthy (py_or a b) = truthy a || truthy b.
Proof. by destruct a. Qed.

Lemma lstrip_no_leading_space s : no_leading_space (lstrip s).
Proof.
  induction s as [|c s IH]; simpl; [done|].
  destruct (isspace c) eqn:E; [done | by simpl].
Qed.

Lemma lstrip_fixed s : no_leading_space s -> lstrip s = s.
Proof. destruct s as [|c s]; simpl; [done|]. by intros ->. Qed.

Lemma rstrip_no_leading_space s :
  no_leading_space s -> no_leading_space (rstrip s).
Proof.
  destruct s as [|c s]; simpl; [done|]. intros Hc.
  destruct (rstrip s); simpl; [by rewrite Hc | done].
Qed.

Lemma rstrip_cons c s :
  rstrip (String c s) =
  match rstrip s with
  | EmptyString => if isspace c then EmptyString else String c EmptyString
  | r => String c r
  end.
Proof. done. Qed.

Lemma rstrip_idem s : rstrip (rstrip s) = rstrip s.
Proof.
  induction s as [|c s IH]; [done|].
  rewrite rstrip_cons.
  destruct (rstrip s) as [|c' r] eqn:E.
  - destruct (isspace c) eqn:Ec; simpl; [done | by rewrite Ec].
  - rewrite rstrip_cons, IH. done.
Qed.

Lemma strip_idem s : strip (strip s) = strip s.
Proof.
  unfold strip.
  rewrite (lstrip_fixed (rstrip (lstrip s))).
  - apply rstrip_idem.
  - apply rstrip_no_leading_space, lstrip_no_leading_space.
Qed.

Lemma rstrip_no_space s : all_chars (fun c => negb (isspace c)) s = true -> rstrip s = s.
Proof.
  induction s as [|c s IH]; simpl; [done|].
  intros [Hc Hs]%andb_true_iff. rewrite (IH Hs).
  destruct s; [|done]. by destruct (isspace c).
Qed.

Lemma all_chars_impl (p q : ascii -> bool) s :
  (forall c, p c = true -> q c = true) ->
  all_chars p s = true -> all_chars q s = true.
Proof.
  intros Hpq. induction s as [|c s IH]; simpl; [done|].
  intros [Hc Hs]%andb_true_iff. rewrite (Hpq _ Hc). by apply IH.
Qed.

Lemma strip_digits s : all_chars isdigit s = true -> strip s = s.
Proof.
  intros Hd. unfold strip.
  assert (all_chars (fun c => negb (isspace c)) s = true) as Hns.
  { eapply all_chars_impl; [|exact Hd].
    intros c Hc. by rewrite (isdigit_not_space c Hc). }
  rewrite lstrip_fixed; [by apply rstrip_no_space|].
  destruct s as [|c s]; simpl in *; [done|].
  apply andb_true_iff in Hns as [Hc _]. by apply negb_true_iff.
Qed.

Lemma take_digits_all_digits s : all_chars isdigit (take_digits s) = true.
Proof.
  induction s as [|c s IH]; simpl; [done|].
  destruct (isdigit c) eqn:E; simpl; [by rewrite E | done].
Qed.

Lemma take_digits_fixed s : all_chars isdigit s = true -> take_digits s = s.
Proof.
  induction s as [|c s IH]; simpl; [done|].
  intros [Hc Hs]%andb_true_iff. by rewrite Hc, IH.
Qed.

Lemma re_search_digits_group s g :
  re_search_digits s = Some g -> truthy g = true /\ all_chars isdigit g = true.
Proof.
  induction s as [|c s IH]; simpl; [done|].
  destruct (isdigit c) eqn:E; [|done].
  intros [= <-]. simpl. by rewrite E, take_digits_all_digits.
Qed.

Lemma re_search_digits_fixed s :
  truthy s = true -> all_chars isdigit s = true -> re_search_digits s = Some s.
Proof.
  destruct s as [|c s]; simpl; [done|].
  intros _ [Hc Hs]%andb_true_iff. by rewrite Hc, take_digits_fixed.
Qed.

Lemma re_search_digits_none s :
  re_search_digits s = None <-> some_char isdigit s = false.
Proof.
  induction s as [|c s IH]; simpl; [done|].
  destruct (isdigit c); simpl; [split; congruence | done].
Qed.

(** The greedy prefix stops at the end of the string or at a non-digit. *)
Lemma take_digits_split s :
  exists post, s = take_digits s +:+ post /\
    (post = "" \/ exists c post', post = String c post' /\ isdigit c = false).
Proof.
  induction s as [|c s (post & Hs & Hpost)]; simpl.
  - exists "". split; [done | by left].
  - destruct (isdigit c) eqn:E.
    + exists post. split; [|done].
      change (String c s = String c (take_digits s +:+ post)). by f_equal.
    + exists (String c s). split; [done|]. right. by exists c, s.
Qed.

(** The regular-expression search finds the first maximal digit run. *)
Lemma re_search_digits_first_run s g :
  re_search_digits s = Some g -> first_maximal_digit_run s g.
Proof.
  induction s as [|c s IH]; simpl; [done|].
  destruct (isdigit c) eqn:E.
  - intros [= <-]. destruct (take_digits_split s) as (post & Hs & Hpost).
    exists "", post. split_and!; try done.
    + change (String c s = String c (take_digits s +:+ post)). by f_equal.
    + simpl. by rewrite E, take_digits_all_digits.
  - intros (pre & post & -> & Hpre & Hg & Hd & Hpost)%IH.
    exists (String c pre), post. split_and!; try done.
    simpl. by rewrite E.
Qed.

End StringFacts.

(** * Properties of the normalizer loop *)

Section LoopFacts.

Implicit Types (st : LoopState) (row : RawRow) (r : ModelRecord).
Implicit Types (d : gmap string PyVal).

Lemma loop_body_row_record st row :
  loop_body st row =
  let! o := row_record row in
  match o with
  | None => inr st
  | Some r => if bool_decide (rec_key r ∈ seen_models st) then inr st
              else inr (push st r)
  end.
Proof.
  destruct row as [d|v]; [|done]. unfold loop_body, row_record.
  destruct (method_strip (dict_get d "model" (PyStr ""))) as [e|n]; [done|].
  destruct (method_strip (dict_get d "id" (PyStr ""))) as [e|i]; [done|].
  simpl. destruct (negb (truthy n) && negb (truthy i)) eqn:E; [done|].
  unfold rec_key; simpl. rewrite py_or_absorb.
  assert (truthy (lower (py_or i n)) = true) as ->.
  { rewrite truthy_lower, truthy_py_or.
    destruct (truthy n), (truthy i); done. }
  simpl. case_bool_decide; [done|].
  unfold push, rec_key; simpl. by rewrite py_or_absorb.
Qed.

Lemma emitted_alone_row_record row :
  emitted_alone row =
  match row_record row with inr (Some r) => Some r | _ => None end.
Proof.
  unfold emitted_alone, validate_and_clean_models. simpl.
  rewrite loop_body_row_record.
  destruct (row_record row) as [e|[r|]]; done.
Qed.

Lemma loop_app l1 l2 st :
  loop (l1 ++ l2) st = let! st' := loop l1 st in loop l2 st'.
Proof.
  revert st. induction l1 as [|row l1 IH]; intros st; simpl; [done|].
  destruct (loop_body st row) as [e|st1]; simpl; [done | apply IH].
Qed.

(** A successful iteration either keeps the state or pushes the record
    the row yields alone, depending on its key. *)
Lemma loop_body_inr st row st' :
  loop_body st row = inr st' ->
  match emitted_alone row with
  | Some r => st' = if bool_decide (rec_key r ∈ seen_models st) then st
                    else push st r
  | None => st' = st
  end.
Proof.
  rewrite loop_body_row_record, emitted_alone_row_record.
  destruct (row_record row) as [e|[r|]]; simpl; [done| |congruence].
  case_bool_decide; congruence.
Qed.

Lemma first_occurrences_snoc cands r :
  first_occurrences (cands ++ [r]) =
  first_occurrences cands
  ++ (if bool_decide (rec_key r ∈ rec_key <$> cands) then [] else [r]).
Proof.
  unfold first_occurrences.
  rewrite length_app, Nat.add_1_r, seq_S, omap_app. simpl. f_equal.
  - apply list_omap_ext, Forall2_same_length_lookup. split; [done|].
    intros i x y [-> Hlt]%lookup_seq [-> _]%lookup_seq. simpl in *.
    rewrite lookup_app_l by done.
    rewrite take_app_le by lia. done.
  - rewrite list_lookup_middle by done. rewrite take_app_length.
    case_bool_decide; done.
Qed.

Lemma first_occurrences_subseteq cands : first_occurrences cands ⊆ cands.
Proof.
  intros r (i & _ & Hi)%list_elem_of_omap.
  destruct (cands !! i) as [r'|] eqn:E; [|done].
  case_bool_decide; [done|]. simplify_eq. by eapply list_elem_of_lookup_2.
Qed.

Lemma first_occurrences_NoDup cands :
  NoDup (rec_key <$> first_occurrences cands).
Proof.
  induction cands as [|r cands IH] using rev_ind; [constructor|].
  rewrite first_occurrences_snoc, fmap_app. apply NoDup_app.
  split_and!; [done | | case_bool_decide; repeat constructor; set_solver].
  intros k (r' & -> & Hr')%list_elem_of_fmap.
  apply first_occurrences_subseteq in Hr'.
  case_bool_decide as Hk; simpl; [set_solver|].
  intros Heq%list_elem_of_singleton. apply Hk.
  rewrite <- Heq. by apply list_elem_of_fmap_2.
Qed.

Lemma loop_inv_init : loop_inv {| validated_models := []; seen_models := ∅ |} [].
Proof. split; [done|]. intros k. simpl. set_solver. Qed.

Lemma loop_body_inv st row st' cands :
  loop_body st row = inr st' -> loop_inv st cands ->
  loop_inv st' (cands ++ omap emitted_alone [row]).
Proof.
  intros Hb%loop_body_inr [Hv Hs]. simpl.
  destruct (emitted_alone row) as [r|]; simpl.
  2:{ subst st'. rewrite app_nil_r. by split. }
  subst st'. split.
  - rewrite first_occurrences_snoc.
    rewrite (bool_decide_ext _ _ (Hs (rec_key r))).
    case_bool_decide; simpl; [by rewrite app_nil_r | by rewrite Hv].
  - intros k. rewrite fmap_app, elem_of_app. simpl.
    rewrite list_elem_of_singleton, <- Hs.
    case_bool_decide; simpl.
    + split; [tauto | intros [?| ->]; done].
    + by rewrite elem_of_union, elem_of_singleton.
Qed.

Lemma loop_inv_preserved l st st' cands :
  loop l st = inr st' -> loop_inv st cands ->
  loop_inv st' (cands ++ omap emitted_alone l).
Proof.
  revert st cands. induction l as [|row l IH]; intros st cands; simpl.
  - intros [= ->]. by rewrite app_nil_r.
  - destruct (loop_body st row) as [e|st1] eqn:Hb; simpl; [done|].
    intros Hl Hinv.
    pose proof (loop_body_inv _ _ _ _ Hb Hinv) as Hinv1.
    specialize (IH _ _ Hl Hinv1). simpl in IH.
    destruct (emitted_alone row); simpl in *; [|by rewrite app_nil_r in IH].
    by rewrite <- app_assoc in IH.
Qed.

(** The output, when there is one, is the list of first occurrences of
    what the rows yield alone. *)
Lemma validate_and_clean_models_first_occurrences L out :
  validate_and_clean_models L = inr out ->
  out = first_occurrences (omap emitted_alone L).
Proof.
  unfold validate_and_clean_models.
  destruct (loop L _) as [e|st] eqn:Hl; simpl; [done|]. intros [= <-].
  by destruct (loop_inv_preserved _ _ _ _ Hl loop_inv_init) as [-> _].
Qed.

(** Every emitted record is the record of some dict row of the input. *)
Lemma validate_and_clean_models_provenance L out r :
  validate_and_clean_models L = inr out -> r ∈ out ->
  exists d, RowDict d ∈ L /\ emitted_alone (RowDict d) = Some r.
Proof.
  intros -> %validate_and_clean_models_first_occurrences
         Hr%first_occurrences_subseteq.
  apply list_elem_of_omap in Hr as ([d|v] & Hin & He); [by exists d|].
  by rewrite emitted_alone_row_record in He.
Qed.

Lemma first_occurrences_NoDup_fixed l :
  NoDup (rec_key <$> l) -> first_occurrences l = l.
Proof.
  induction l as [|r l IH] using rev_ind; [done|].
  rewrite fmap_app. intros (Hl & Hfresh & _)%NoDup_app.
  rewrite first_occurrences_snoc, (IH Hl). f_equal.
  case_bool_decide as Hk; [|done].
  destruct (Hfresh _ Hk). simpl. by apply list_elem_of_singleton.
Qed.

Lemma loop_body_total st row :
  string_fields row -> exists st', loop_body st row = inr st'.
Proof.
  rewrite loop_body_row_record.
  destruct row as [d|v]; simpl; [|by eexists].
  intros [[n ->] [i ->]]. simpl.
  destruct (negb (truthy (strip n)) && negb (truthy (strip i)));
    [by eexists|].
  simpl. case_bool_decide; by eexists.
Qed.

Lemma loop_total l st :
  Forall string_fields l -> exists st', loop l st = inr st'.
Proof.
  revert st. induction l as [|row l IH]; intros st Hl; simpl; [by eexists|].
  apply Forall_cons in Hl as [Hrow Hl].
  destruct (loop_body_total st row Hrow) as [st1 ->]. simpl. by apply IH.
Qed.

(** The normalizer returns on every input whose dict rows hold strings
    under ["model"] and ["id"]. *)
Lemma validate_and_clean_models_total L :
  Forall string_fields L -> exists out, validate_and_clean_models L = inr out.
Proof.
  intros HL. unfold validate_and_clean_models.
  destruct (loop_total L {| validated_models := []; seen_models := ∅ |} HL)
    as [st ->].
  by eexists.
Qed.

Lemma dict_get_to_row r :
  dict_get (match to_row r with RowDict d => d | RowOther _ => ∅ end)
           "model" (PyStr "") = PyStr (rec_model r) /\
  dict_get (match to_row r with RowDict d => d | RowOther _ => ∅ end)
           "id" (PyStr "") = PyStr (rec_id r) /\
  dict_get (match to_row r with RowDict d => d | RowOther _ => ∅ end)
           "context" (PyStr "") = PyStr (rec_context r).
Proof. unfold dict_get; simpl. by simplify_map_eq. Qed.

Lemma clean_context_digits v : all_chars isdigit (clean_context v) = true.
Proof.
  unfold clean_context. destruct (truthy (strip (py_str v))) eqn:E.
  - destruct (re_search_digits _) as [g|] eqn:Hg; [|done].
    by apply re_search_digits_group in Hg as [_ ?].
  - by apply truthy_false in E as ->.
Qed.

Lemma clean_context_idem v :
  clean_context (PyStr (clean_context v)) = clean_context v.
Proof.
  pose proof (clean_context_digits v) as Hd.
  unfold clean_context at 1. simpl. rewrite (strip_digits _ Hd).
  destruct (truthy (clean_context v)) eqn:E; [|done].
  by rewrite re_search_digits_fixed.
Qed.

(** The shape of a record that a dict row yields. *)
Lemma emitted_alone_Some d r :
  emitted_alone (RowDict d) = Some r ->
  exists n i,
    dict_get d "model" (PyStr "") = PyStr n /\
    dict_get d "id" (PyStr "") = PyStr i /\
    truthy (py_or (strip n) (strip i)) = true /\
    r = {| rec_model := py_or (strip n) (strip i);
           rec_id := strip i;
           rec_context := clean_context (dict_get d "context" (PyStr "")) |}.
Proof.
  rewrite emitted_alone_row_record. simpl.
  destruct (dict_get d "model" (PyStr "")) as [| | |n|]; try done.
  destruct (dict_get d "id" (PyStr "")) as [| | |i|]; try done.
  simpl. destruct (negb _ && negb _) eqn:E; [done|].
  intros [= <-]. exists n, i. split_and!; try done.
  rewrite truthy_py_or. by destruct (truthy (strip n)), (truthy (strip i)).
Qed.

(** A record that was emitted is emitted again, unchanged, when it is
    read back as a row. *)
Lemma emitted_alone_to_row row r :
  emitted_alone row = Some r -> emitted_alone (to_row r) = Some r.
Proof.
  destruct row as [d|v]; [|by rewrite emitted_alone_row_record].
  intros (n & i & _ & _ & Ht & ->)%emitted_alone_Some.
  rewrite emitted_alone_row_record.
  set (r := {| rec_model := _ |}).
  destruct (dict_get_to_row r) as (Hm & Hi & Hc).
  unfold row_record. simpl in Hm, Hi, Hc. simpl. rewrite Hm, Hi, Hc.
  subst r; simpl.
  assert (strip (py_or (strip n) (strip i)) = py_or (strip n) (strip i)) as ->.
  { unfold py_or. destruct (truthy (strip n)); apply strip_idem. }
  rewrite strip_idem, Ht. simpl.
  rewrite clean_context_idem. do 2 f_equal.
  unfold py_or at 1. by rewrite Ht.
Qed.

Lemma omap_emitted_alone_to_row l :
  Forall (fun r => exists row, emitted_alone row = Some r) l ->
  omap emitted_alone (to_row <$> l) = l.
Proof.
  induction 1 as [|r l [row Hr] _ IH]; [done|].
  rewrite fmap_cons. cbn [omap list_omap].
  rewrite (emitted_alone_to_row _ _ Hr). f_equal. exact IH.
Qed.

Lemma string_fields_to_row r : string_fields (to_row r).
Proof.
  destruct (dict_get_to_row r) as (Hm & Hi & _). simpl in *.
  split; by eexists.
Qed.

Lemma some_char_lstrip p s :
  some_char p s = false -> some_char p (lstrip s) = false.
Proof.
  induction s as [|c s IH]; simpl; [done|].
  intros [Hc Hs]%orb_false_iff.
  destruct (isspace c); simpl; [by apply IH | by rewrite Hc, Hs].
Qed.

Lemma some_char_rstrip p s :
  some_char p s = false -> some_char p (rstrip s) = false.
Proof.
  induction s as [|c s IH]; [done|]. rewrite rstrip_cons. simpl.
  intros [Hc Hs]%orb_false_iff. specialize (IH Hs).
  destruct (rstrip s); simpl in *.
  - destruct (isspace c); simpl; [done | by rewrite Hc].
  - by rewrite Hc, IH.
Qed.

Lemma some_char_strip p s :
  some_char p s = false -> some_char p (strip s) = false.
Proof. intros. by apply some_char_rstrip, some_char_lstrip. Qed.

(** Removing a row that leaves the state alone does not change the
    result. *)
Lemma validate_and_clean_models_skip l1 row l2 :
  (forall st, loop_body st row = inr st) ->
  validate_and_clean_models (l1 ++ row :: l2) =
  validate_and_clean_models (l1 ++ l2).
Proof.
  intros Hskip. unfold validate_and_clean_models.
  rewrite !loop_app. destruct (loop l1 _) as [e|st]; simpl; [done|].
  by rewrite Hskip.
Qed.

(** A dict row with a non-string under ["model"] or ["id"] makes the
    iteration raise. *)
Lemma loop_body_non_string st d :
  not_a_string (dict_get d "model" (PyStr "")) \/
  not_a_string (dict_get d "id" (PyStr "")) ->
  loop_body st (RowDict d) = inl AttributeError.
Proof.
  unfold loop_body.
  destruct (dict_get d "model" (PyStr "")) as [| | |n|];
    destruct (dict_get d "id" (PyStr "")) as [| | |i|]; simpl; tauto.
Qed.

End LoopFacts.


(** * The normalizer: the claims *)

(** C1, as the code runs it: on the rows of scenario A the normalizer
    returns one record, the second row being dropped for its key, and the
    context of that record is the first digit run of "128,000", that is
    "128" (not "128000"). *)
Theorem scenario_A_result :
  validate_and_clean_models scenario_A =
  inr [ {| rec_model := "GPT-X"; rec_id := "openai/gpt-x";
           rec_context := "128" |} ] /\
  (rec_key <$> omap emitted_alone scenario_A) = ["openai/gpt-x"; "openai/gpt-x"].
Proof. split; vm_compute; reflexivity. Qed.

(** C5: no two records of the output have the same dedup key, and the
    output is the list of the rows' records in which a record is kept
    exactly when no earlier row had its key (first occurrence wins, order
    of first appearance). *)
Theorem dedup_key_unique_first_wins L out :
  validate_and_clean_models L = inr out ->
  NoDup (rec_key <$> out) /\
  out = first_occurrences (omap emitted_alone L).
Proof.
  intros H. pose proof (validate_and_clean_models_first_occurrences _ _ H) as ->.
  split; [apply first_occurrences_NoDup | done].
Qed.

Lemma dedup_key_unique_first_wins_witness :
  NoDup (rec_key <$> [ {| rec_model := "GPT-X"; rec_id := "openai/gpt-x";
                          rec_context := "128" |} ]) /\
  [ {| rec_model := "GPT-X"; rec_id := "openai/gpt-x"; rec_context := "128" |} ]
  = first_occurrences (omap emitted_alone scenario_A).
Proof. apply (dedup_key_unique_first_wins scenario_A). vm_compute. reflexivity. Defined.

(** C6: every emitted record comes from a dict row of the input, and for
    whichever row yields it: when the trimmed context string of the row
    has a digit, the record's context is the first maximal run of digits
    of that string; when the context string has no digit, the record's
    context is empty. *)
Theorem context_first_maximal_digit_run L out r :
  validate_and_clean_models L = inr out -> r ∈ out ->
  (exists d, RowDict d ∈ L /\ emitted_alone (RowDict d) = Some r) /\
  (forall d, emitted_alone (RowDict d) = Some r ->
     (some_char isdigit (row_context d) = true ->
      first_maximal_digit_run (row_context d) (rec_context r)) /\
     (some_char isdigit (py_str (dict_get d "context" (PyStr ""))) = false ->
      rec_context r = "")).
Proof.
  intros HL Hr. split; [by eapply validate_and_clean_models_provenance|].
  intros d (n & i & _ & _ & _ & ->)%emitted_alone_Some. simpl.
  unfold row_context, clean_context.
  set (c := strip (py_str (dict_get d "context" (PyStr "")))).
  split.
  - intros Hd. destruct (truthy c) eqn:Ec.
    + destruct (re_search_digits c) as [g|] eqn:Hg.
      * by apply re_search_digits_first_run.
      * apply re_search_digits_none in Hg. congruence.
    + apply truthy_false in Ec. rewrite Ec in Hd. done.
  - intros Hd%(some_char_strip isdigit). fold c in Hd.
    destruct (truthy c) eqn:Ec; [|by apply truthy_false].
    by apply re_search_digits_none in Hd as ->.
Qed.

Lemma context_first_maximal_digit_run_witness :
  let r := {| rec_model := "GPT-X"; rec_id := "openai/gpt-x";
              rec_context := "128" |} in
  (exists d, RowDict d ∈ scenario_A /\ emitted_alone (RowDict d) = Some r) /\
  (forall d, emitted_alone (RowDict d) = Some r ->
     (some_char isdigit (row_context d) = true ->
      first_maximal_digit_run (row_context d) (rec_context r)) /\
     (some_char isdigit (py_str (dict_get d "context" (PyStr ""))) = false ->
      rec_context r = "")).
Proof.
  apply (context_first_maximal_digit_run scenario_A
           [ {| rec_model := "GPT-X"; rec_id := "openai/gpt-x";
                rec_context := "128" |} ]).
  - vm_compute. reflexivity.
  - apply list_elem_of_here.
Defined.

(** C7: a dict row whose model and id are both empty after trimming
    contributes nothing: the result is the one of the input without that
    row; and the single row of scenario B yields the empty list. *)
Theorem empty_name_and_id_dropped l1 d l2 n i :
  dict_get d "model" (PyStr "") = PyStr n ->
  dict_get d "id" (PyStr "") = PyStr i ->
  strip n = "" -> strip i = "" ->
  validate_and_clean_models (l1 ++ RowDict d :: l2) =
  validate_and_clean_models (l1 ++ l2) /\
  validate_and_clean_models scenario_B = inr [].
Proof.
  intros Hn Hi Hsn Hsi. split; [|vm_compute; reflexivity].
  apply validate_and_clean_models_skip. intros st.
  unfold loop_body. by rewrite Hn, Hi; simpl; rewrite Hsn, Hsi.
Qed.

Lemma empty_name_and_id_dropped_witness :
  validate_and_clean_models
    (scenario_A ++ RowDict {[ "model" := PyStr "  "; "context" := PyStr "1000" ]}
                :: scenario_A) =
  validate_and_clean_models (scenario_A ++ scenario_A) /\
  validate_and_clean_models scenario_B = inr [].
Proof.
  apply (empty_name_and_id_dropped scenario_A _ scenario_A "  " "");
    vm_compute; reflexivity.
Defined.

(** C8: the normalizer is idempotent: reading its output back as rows
    and normalizing again returns the same output. *)
Theorem validate_and_clean_models_idempotent L out :
  validate_and_clean_models L = inr out ->
  validate_and_clean_models (to_row <$> out) = inr out.
Proof.
  intros HL.
  assert (Forall (fun r => exists row, emitted_alone row = Some r) out) as Hout.
  { apply Forall_forall. intros r Hr.
    destruct (validate_and_clean_models_provenance _ _ _ HL Hr) as (d & _ & Hd).
    by eexists. }
  destruct (validate_and_clean_models_total (to_row <$> out)) as [out' Hout'].
  { apply Forall_fmap, Forall_forall. intros r _. apply string_fields_to_row. }
  rewrite Hout'. f_equal.
  apply validate_and_clean_models_first_occurrences in Hout'.
  rewrite omap_emitted_alone_to_row in Hout' by done. subst out'.
  apply first_occurrences_NoDup_fixed.
  apply validate_and_clean_models_first_occurrences in HL. subst out.
  apply first_occurrences_NoDup.
Qed.

Lemma validate_and_clean_models_idempotent_witness :
  validate_and_clean_models
    (to_row <$> [ {| rec_model := "GPT-X"; rec_id := "openai/gpt-x";
                     rec_context := "128" |} ]) =
  inr [ {| rec_model := "GPT-X"; rec_id := "openai/gpt-x";
           rec_context := "128" |} ].
Proof.
  apply (validate_and_clean_models_idempotent scenario_A).
  vm_compute. reflexivity.
Defined.

(** C9: every emitted record has a non-empty model, which is the trimmed
    model name of a dict row of the input if that is non-empty and the
    trimmed id otherwise; its context holds digits only (or nothing); and
    an element of the input that is not a dict contributes nothing. *)
Theorem emitted_record_shape L out :
  validate_and_clean_models L = inr out ->
  (forall r, r ∈ out ->
     truthy (rec_model r) = true /\
     all_chars isdigit (rec_context r) = true /\
     exists d n i,
       RowDict d ∈ L /\
       dict_get d "model" (PyStr "") = PyStr n /\
       dict_get d "id" (PyStr "") = PyStr i /\
       rec_model r = (if truthy (strip n) then strip n else strip i) /\
       rec_id r = strip i) /\
  (forall l1 v l2, L = l1 ++ RowOther v :: l2 ->
     validate_and_clean_models (l1 ++ l2) = inr out).
Proof.
  intros HL. split.
  - intros r Hr.
    destruct (validate_and_clean_models_provenance _ _ _ HL Hr)
      as (d & Hd & (n & i & Hn & Hi & Ht & ->)%emitted_alone_Some).
    simpl. split_and!; [done | apply clean_context_digits |].
    by exists d, n, i.
  - intros l1 v l2 ->. rewrite <- HL. symmetry.
    by apply validate_and_clean_models_skip.
Qed.

Lemma emitted_record_shape_witness :
  let L := RowOther (PyInt 7) :: scenario_A in
  let out := [ {| rec_model := "GPT-X"; rec_id := "openai/gpt-x";
                  rec_context := "128" |} ] in
  (forall r, r ∈ out ->
     truthy (rec_model r) = true /\
     all_chars isdigit (rec_context r) = true /\
     exists d n i,
       RowDict d ∈ L /\
       dict_get d "model" (PyStr "") = PyStr n /\
       dict_get d "id" (PyStr "") = PyStr i /\
       rec_model r = (if truthy (strip n) then strip n else strip i) /\
       rec_id r = strip i) /\
  (forall l1 v l2, L = l1 ++ RowOther v :: l2 ->
     validate_and_clean_models (l1 ++ l2) = inr out).
Proof.
  apply (emitted_record_shape (RowOther (PyInt 7) :: scenario_A)).
  vm_compute. reflexivity.
Defined.

(** C10: the normalizer is not total on loosely typed rows: a dict whose
    ["model"] or ["id"] holds a value that is not a string (an integer,
    say) makes it raise [AttributeError], wherever the row stands after
    rows with string fields, whereas an integer under ["context"] is
    accepted and printed. *)
Theorem non_string_name_raises :
  (forall l1 d l2,
     Forall string_fields l1 ->
     not_a_string (dict_get d "model" (PyStr "")) \/
     not_a_string (dict_get d "id" (PyStr "")) ->
     validate_and_clean_models (l1 ++ RowDict d :: l2) = inl AttributeError) /\
  validate_and_clean_models [int_model_row] = inl AttributeError /\
  validate_and_clean_models [int_id_row] = inl AttributeError /\
  validate_and_clean_models (scenario_A ++ [int_model_row]) = inl AttributeError /\
  validate_and_clean_models [int_context_row] =
  inr [ {| rec_model := "GPT-X"; rec_id := "openai/gpt-x";
           rec_context := "128000" |} ].
Proof.
  split_and!; try (vm_compute; reflexivity).
  intros l1 d l2 Hl1 Hbad. unfold validate_and_clean_models.
  rewrite loop_app.
  destruct (loop_total l1 {| validated_models := []; seen_models := ∅ |} Hl1)
    as [st ->].
  cbn [exn_bind loop]. by rewrite loop_body_non_string.
Qed.

Lemma non_string_name_raises_witness :
  validate_and_clean_models
    (scenario_A ++ RowDict {[ "model" := PyStr "GPT-Y"; "id" := PyInt 5 ]}
                :: scenario_B) = inl AttributeError.
Proof.
  apply (proj1 non_string_name_raises scenario_A _ scenario_B).
  - unfold scenario_A.
    apply Forall_cons_2; [|apply Forall_cons_2; [|apply Forall_nil_2]];
      (split; eexists; vm_compute; reflexivity).
  - right. vm_compute. exact I.
Defined.

(** * Properties of the monad *)

Section MonadFacts.

Context {A B : Type}.
Implicit Types (m : M A) (k : A -> M B) (h : PyExn -> M A) (f : M unit).

Lemma outcome_bind m k :
  outcome (bind m k) =
  match outcome m with inl e => inl e | inr a => outcome (k a) end.
Proof. destruct m as [t [e|a]]; simpl; [done|]. by destruct (k a). Qed.

Lemma trace_bind m k :
  trace (bind m k) =
  trace m ++ match outcome m with inl _ => [] | inr a => trace (k a) end.
Proof.
  destruct m as [t [e|a]]; simpl; [by rewrite app_nil_r|]. by destruct (k a).
Qed.

Lemma outcome_try_except m h :
  outcome (try_except m h) =
  match outcome m with inl (Exc e) => outcome (h e) | o => o end.
Proof. destruct m as [t [[e|c]|a]]; simpl; try done. by destruct (h e). Qed.

Lemma trace_try_except m h :
  trace (try_except m h) =
  trace m ++ match outcome m with inl (Exc e) => trace (h e) | _ => [] end.
Proof.
  destruct m as [t [[e|c]|a]]; simpl; rewrite ?app_nil_r; try done.
  by destruct (h e).
Qed.

Lemma outcome_try_finally m f :
  outcome (try_finally m f) =
  match outcome f with inl e => inl e | inr _ => outcome m end.
Proof. destruct m as [t r], f as [t' [e|[]]]; done. Qed.

Lemma trace_try_finally m f :
  trace (try_finally m f) = trace m ++ trace f.
Proof. destruct m as [t r], f as [t' [e|[]]]; done. Qed.

End MonadFacts.

Section OnlyFacts.

Context (P : Event -> Prop).

Lemma only_ret {A} (a : A) : only P (ret a).
Proof. constructor. Qed.

Lemma only_raise {A} r : only P (@raise A r).
Proof. constructor. Qed.

Lemma only_emit e : P e -> only P (emit e).
Proof. by repeat constructor. Qed.

Lemma only_bind {A B} (m : M A) (k : A -> M B) :
  only P m -> (forall a, outcome m = inr a -> only P (k a)) ->
  only P (bind m k).
Proof.
  unfold only. rewrite trace_bind. intros Hm Hk. apply Forall_app.
  split; [done|]. destruct (outcome m); [constructor | by apply Hk].
Qed.

Lemma only_try_except {A} (m : M A) h :
  only P m -> (forall e, only P (h e)) -> only P (try_except m h).
Proof.
  unfold only. rewrite trace_try_except. intros Hm Hh. apply Forall_app.
  split; [done|]. destruct (outcome m) as [[e|c]|a]; try constructor.
  apply Hh.
Qed.

Lemma only_try_finally {A} (m : M A) f :
  only P m -> only P f -> only P (try_finally m f).
Proof.
  unfold only. rewrite trace_try_finally. intros. by apply Forall_app.
Qed.

Lemma only_lift_exn {A} (x : PyExn + A) : only P (lift_exn x).
Proof. destruct x; constructor. Qed.

Lemma only_call e ok : P e -> only P (call e ok).
Proof.
  intros He. apply only_bind; [by apply only_emit|].
  intros _ _. destruct ok; constructor.
Qed.

End OnlyFacts.

Lemma only_impl (P Q : Event -> Prop) {A} (m : M A) :
  (forall e, P e -> Q e) -> only P m -> only Q m.
Proof. intros HPQ Hm. unfold only in *. by eapply Forall_impl. Qed.

(** Decomposes a goal [only P m] along the structure of [m]. *)
Ltac only_step :=
  lazymatch goal with
  | |- only _ (bind _ _) => apply only_bind; [|intros ? ?]
  | |- only _ (try_except _ _) => apply only_try_except; [|intros ?]
  | |- only _ (try_finally _ _) => apply only_try_finally
  | |- only _ (ret _) => apply only_ret
  | |- only _ (raise _) => apply only_raise
  | |- only _ (sys_exit _) => apply only_raise
  | |- only _ (lift_exn _) => apply only_lift_exn
  | |- only _ (log _ _) => apply only_emit
  | |- only _ (emit _) => apply only_emit
  | |- only _ (call _ _) => apply only_call
  | |- only _ (if ?b then _ else _) => destruct b
  | |- only _ (match ?x with _ => _ end) => destruct x
  end.

Ltac only_tac := repeat only_step.

Lemma connect_to_browser_only {R} (s : Session R) url :
  only (session_event url) (connect_to_browser s).
Proof. unfold connect_to_browser. only_tac; done. Qed.

Lemma scrape_openrouter_models_only w :
  only (session_event OPENROUTER_URL) (scrape_openrouter_models w).
Proof.
  unfold scrape_openrouter_models.
  only_tac; try done; apply connect_to_browser_only.
Qed.

Lemma fetch_openrouter_api_models_only json_loads w :
  only (session_event OPENROUTER_API_URL)
       (fetch_openrouter_api_models json_loads w).
Proof.
  unfold fetch_openrouter_api_models.
  only_tac; try done; apply connect_to_browser_only.
Qed.

(** * The entry point: the claims *)

Section MainFacts.

Variable json_loads : string -> option Json.

Implicit Types (w : World) (models : list ModelRecord) (j : Json).

Lemma log_preview_outcome i models : outcome (log_preview i models) = inr tt.
Proof.
  revert i. induction models as [|model rest IH]; intros i; [done|].
  cbn [log_preview]. rewrite !outcome_bind. simpl.
  destruct (truthy (rec_id model)), (truthy (rec_context model)); simpl;
    apply IH.
Qed.

Lemma log_preview_only i models : only preview_event (log_preview i models).
Proof.
  revert i.
  induction models as [|model rest IH]; intros i; cbn [log_preview];
    only_tac; try done; apply IH.
Qed.

Lemma session_event_no_api_write url e : session_event url e -> no_api_write e.
Proof. by destruct e as [lvl []| | | | | | | | | | |]. Qed.

Lemma preview_event_no_api_write e : preview_event e -> no_api_write e.
Proof. by destruct e as [[] []| | | | | | | | | | |]. Qed.

Lemma main_only_no_api_write w j :
  outcome (fetch_openrouter_api_models json_loads w) = inr j ->
  json_truthy j = false ->
  only no_api_write (main json_loads w).
Proof.
  intros Hj Hf. unfold main.
  repeat first
    [ apply (only_impl _ _ _ (session_event_no_api_write OPENROUTER_URL)),
        scrape_openrouter_models_only
    | apply (only_impl _ _ _ (session_event_no_api_write OPENROUTER_API_URL)),
        fetch_openrouter_api_models_only
    | apply (only_impl _ _ _ preview_event_no_api_write), log_preview_only
    | lazymatch goal with
      | |- only _ (if json_truthy ?a then _ else _) =>
          assert (a = j) as -> by congruence; rewrite Hf
      | |- only _ (write_json _ _ _ _) => unfold write_json
      end
    | only_step ];
    done.
Qed.

Lemma starts_app t1 t2 : starts (t1 ++ t2) = starts t1 + starts t2.
Proof. unfold starts. by rewrite List.filter_app, length_app. Qed.

Lemma starts_cons e t :
  starts (e :: t) = (if is_start e then 1 else 0) + starts t.
Proof. unfold starts. simpl. by destruct (is_start e). Qed.

Lemma only_starts_0 {A} (m : M A) :
  only (fun e => is_start e = false) m -> starts (trace m) = 0.
Proof.
  unfold only, starts. induction 1 as [|e t He _ IH]; simpl; [done|].
  by rewrite He.
Qed.

Lemma connect_to_browser_outcome {R} (s : Session R) :
  exists connected, outcome (connect_to_browser s) = inr connected.
Proof.
  destruct s as [[] [] [] [] [] ? ? ? []]; by eexists.
Qed.

Lemma connect_to_browser_starts {R} (s : Session R) :
  starts (trace (connect_to_browser s)) = 1.
Proof. destruct s as [[] [] [] [] [] ? ? ? []]; done. Qed.

(** Each run of the scraper, and each run of the fetcher, starts exactly
    one automation session. *)
Lemma scrape_openrouter_models_starts w :
  starts (trace (scrape_openrouter_models w)) = 1.
Proof.
  unfold scrape_openrouter_models.
  rewrite trace_bind, starts_app, connect_to_browser_starts.
  destruct (connect_to_browser_outcome (scrape_session w)) as [c ->].
  rewrite only_starts_0; [done|]. only_tac; done.
Qed.

Lemma fetch_openrouter_api_models_starts w :
  starts (trace (fetch_openrouter_api_models json_loads w)) = 1.
Proof.
  unfold fetch_openrouter_api_models.
  rewrite trace_bind, starts_app, connect_to_browser_starts.
  destruct (connect_to_browser_outcome (fetch_session w)) as [c ->].
  rewrite only_starts_0; [done|]. only_tac; done.
Qed.

Lemma session_event_no_file_no_api e :
  session_event OPENROUTER_URL e -> no_file_no_api e.
Proof. destruct e as [lvl []| | | | | | | | | | |]; try done. by intros ->. Qed.

End MainFacts.

(** Rewrites traces and outcomes along binds and handlers. *)
Ltac run_step :=
  rewrite ?trace_try_except, ?outcome_try_except, ?trace_bind, ?outcome_bind;
  cbn [trace outcome fst snd log emit ret raise sys_exit app].

(** C4: when the scraper returns no record, [main] exits with code 1
    right after the scraper's events and the warning: the trace has no
    file event (no directory made, no file opened or dumped), no visit of
    the API URL and no message of the API stage, and it starts a single
    automation session, the scraper's own. *)
Theorem no_records_exit_before_write_and_fetch json_loads w :
  outcome (scrape_openrouter_models w) = inr [] ->
  exit_code (main json_loads w) = 1%Z /\
  trace (main json_loads w) =
    [EvLog INFO MsgRule; EvLog INFO MsgStart; EvLog INFO MsgRule]
    ++ trace (scrape_openrouter_models w)
    ++ [EvLog WARNING MsgNoModels] /\
  Forall no_file_no_api (trace (main json_loads w)) /\
  starts (trace (main json_loads w)) = 1.
Proof.
  intros H.
  assert (trace (main json_loads w) =
    [EvLog INFO MsgRule; EvLog INFO MsgStart; EvLog INFO MsgRule]
    ++ trace (scrape_openrouter_models w)
    ++ [EvLog WARNING MsgNoModels]) as Ht.
  { unfold main. repeat run_step. rewrite H. repeat run_step.
    by rewrite app_nil_r. }
  split_and!.
  - unfold exit_code, main. repeat run_step. rewrite H. by repeat run_step.
  - done.
  - rewrite Ht. repeat constructor. apply Forall_app. split.
    + eapply Forall_impl; [apply scrape_openrouter_models_only|].
      apply session_event_no_file_no_api.
    + by repeat constructor.
  - rewrite Ht. rewrite !starts_app, scrape_openrouter_models_starts. done.
Qed.

Lemma fetch_empty_or_invalid json_loads w text :
  evaluate_result (fetch_session w) = Some text ->
  text = "" \/ json_loads text = None ->
  outcome (fetch_openrouter_api_models json_loads w) = inr (JObj []).
Proof.
  intros Hev Htext. unfold fetch_openrouter_api_models.
  destruct (fetch_session w) as [a b c d e f g ev st]. simpl in Hev. subst ev.
  destruct Htext as [-> | Hn];
    destruct a, b, c, d, e, f, st; cbn; rewrite ?Hn; try done;
    by destruct (truthy text).
Qed.

(** Membership in a trace that has been run to a concatenation. *)
Ltac in_trace :=
  repeat (rewrite elem_of_app || rewrite elem_of_cons); intuition done.

(** C3, as the code behaves: a failure while the record file is written
    (the directory, the [open] or the dump) is logged and ends the
    process with exit code 1, before any second automation session; a
    failure while the API payload file is written is logged too, and the
    process then completes with exit code 0. *)
Theorem write_failure_exit_codes json_loads w models :
  outcome (scrape_openrouter_models w) = inr models -> models <> [] ->
  (makedirs_ok w && open_records_ok w && dump_records_ok w = false ->
   exit_code (main json_loads w) = 1%Z /\
   EvLog ERROR MsgSaveFailed ∈ trace (main json_loads w) /\
   starts (trace (main json_loads w)) = 1) /\
  (makedirs_ok w && open_records_ok w && dump_records_ok w = true ->
   forall j,
     outcome (fetch_openrouter_api_models json_loads w) = inr j ->
     json_truthy j = true ->
     open_api_ok w && dump_api_ok w = false ->
     exit_code (main json_loads w) = 0%Z /\
     EvLog ERROR MsgApiSaveFailed ∈ trace (main json_loads w)).
Proof.
  intros Hs Hne.
  destruct models as [|model rest]; [done|].
  split.
  - intros Hfail. split_and!.
    + unfold exit_code, main. repeat run_step. rewrite Hs. repeat run_step.
      unfold call, write_json.
      destruct (makedirs_ok w), (open_records_ok w), (dump_records_ok w);
        try done; by repeat run_step.
    + unfold main. repeat run_step. rewrite Hs. repeat run_step.
      unfold call, write_json.
      destruct (makedirs_ok w), (open_records_ok w), (dump_records_ok w);
        try done; repeat run_step; in_trace.
    + unfold main. repeat run_step. rewrite Hs. repeat run_step.
      unfold call, write_json.
      destruct (makedirs_ok w), (open_records_ok w), (dump_records_ok w);
        try done; repeat run_step;
        repeat (rewrite starts_app || rewrite starts_cons);
        by rewrite scrape_openrouter_models_starts.
  - intros Hok j Hj Ht Hfail.
    apply andb_true_iff in Hok as [[Hm Ho]%andb_true_iff Hd].
    split.
    + unfold exit_code, main. repeat run_step. rewrite Hs. repeat run_step.
      unfold call, write_json. rewrite Hm, Ho, Hd. repeat run_step.
      rewrite log_preview_outcome. repeat run_step.
      rewrite Hj. repeat run_step. rewrite Ht. repeat run_step.
      destruct (open_api_ok w), (dump_api_ok w); try done; by repeat run_step.
    + unfold main. repeat run_step. rewrite Hs. repeat run_step.
      unfold call, write_json. rewrite Hm, Ho, Hd. repeat run_step.
      rewrite log_preview_outcome. repeat run_step.
      rewrite Hj. repeat run_step. rewrite Ht. repeat run_step.
      destruct (open_api_ok w), (dump_api_ok w); try done;
        repeat run_step; in_trace.
Qed.

(** C2, as the code behaves: when the text obtained by the API fetch is
    empty or is not valid JSON, the fetcher returns the empty object, and
    [main] then neither opens nor dumps the API payload file and logs no
    API-model count; once the record file is written it logs the warning
    that no API data was obtained and completes with exit code 0. *)
Theorem empty_or_invalid_json_skips_api_file json_loads w text :
  evaluate_result (fetch_session w) = Some text ->
  text = "" \/ json_loads text = None ->
  outcome (fetch_openrouter_api_models json_loads w) = inr (JObj []) /\
  Forall no_api_write (trace (main json_loads w)) /\
  (forall models,
     outcome (scrape_openrouter_models w) = inr models -> models <> [] ->
     makedirs_ok w && open_records_ok w && dump_records_ok w = true ->
     exit_code (main json_loads w) = 0%Z /\
     EvLog WARNING MsgNoApiData ∈ trace (main json_loads w)).
Proof.
  intros Hev Htext.
  pose proof (fetch_empty_or_invalid json_loads w text Hev Htext) as Hj.
  split_and!; [done | by eapply main_only_no_api_write |].
  intros [|model rest] Hs Hne Hok; [done|].
  apply andb_true_iff in Hok as [[Hm Ho]%andb_true_iff Hd].
  split.
  - unfold exit_code, main. repeat run_step. rewrite Hs. repeat run_step.
    unfold call, write_json. rewrite Hm, Ho, Hd. repeat run_step.
    rewrite log_preview_outcome. repeat run_step.
    rewrite Hj. by repeat run_step.
  - unfold main. repeat run_step. rewrite Hs. repeat run_step.
    unfold call, write_json. rewrite Hm, Ho, Hd. repeat run_step.
    rewrite log_preview_outcome. repeat run_step.
    rewrite Hj. change (json_truthy (JObj [])) with false.
    repeat run_step. in_trace.
Qed.

Lemma empty_or_invalid_json_skips_api_file_witness :
  outcome (fetch_openrouter_api_models toy_json_loads world_D) = inr (JObj []) /\
  Forall no_api_write (trace (main toy_json_loads world_D)) /\
  (forall models,
     outcome (scrape_openrouter_models world_D) = inr models -> models <> [] ->
     makedirs_ok world_D && open_records_ok world_D && dump_records_ok world_D
       = true ->
     exit_code (main toy_json_loads world_D) = 0%Z /\
     EvLog WARNING MsgNoApiData ∈ trace (main toy_json_loads world_D)).
Proof.
  apply (empty_or_invalid_json_skips_api_file toy_json_loads world_D
           "<html>Bad Gateway</html>").
  - reflexivity.
  - right. reflexivity.
Defined.

(** Scenario D on the code: the API body is not valid JSON and the
    fetcher returns the empty object, yet no event of the run opens or
    dumps the API payload file, no API-model count is logged, and the run
    ends with the warning that no API data was obtained. *)
Lemma scenario_D_api_file_not_written :
  toy_json_loads "<html>Bad Gateway</html>" = None /\
  outcome (fetch_openrouter_api_models toy_json_loads world_D) = inr (JObj []) /\
  Forall (fun e => e <> EvOpen OUTPUT_MODELS_FILE /\
                   e <> EvDump OUTPUT_MODELS_FILE (PJson (JObj [])) /\
                   e <> EvLog INFO (MsgApiCount 0))
         (trace (main toy_json_loads world_D)) /\
  last (trace (main toy_json_loads world_D)) = Some (EvLog WARNING MsgNoApiData).
Proof.
  split_and!; try (vm_compute; reflexivity).
  vm_compute. repeat constructor; discriminate.
Qed.

Lemma no_records_exit_before_write_and_fetch_witness :
  exit_code (main toy_json_loads world_C) = 1%Z /\
  trace (main toy_json_loads world_C) =
    [EvLog INFO MsgRule; EvLog INFO MsgStart; EvLog INFO MsgRule]
    ++ trace (scrape_openrouter_models world_C)
    ++ [EvLog WARNING MsgNoModels] /\
  Forall no_file_no_api (trace (main toy_json_loads world_C)) /\
  starts (trace (main toy_json_loads world_C)) = 1.
Proof.
  apply (no_records_exit_before_write_and_fetch toy_json_loads world_C).
  reflexivity.
Defined.

Lemma write_failure_exit_codes_witness :
  (exit_code (main toy_json_loads world_records_dump_fails) = 1%Z /\
   EvLog ERROR MsgSaveFailed ∈ trace (main toy_json_loads world_records_dump_fails) /\
   starts (trace (main toy_json_loads world_records_dump_fails)) = 1) /\
  (exit_code (main toy_json_loads world_api_dump_fails) = 0%Z /\
   EvLog ERROR MsgApiSaveFailed ∈ trace (main toy_json_loads world_api_dump_fails)).
Proof.
  split.
  - apply (write_failure_exit_codes toy_json_loads world_records_dump_fails
             [ {| rec_model := "GPT-X"; rec_id := "openai/gpt-x";
                  rec_context := "128" |} ]);
      [vm_compute; reflexivity | discriminate | reflexivity].
  - apply (write_failure_exit_codes toy_json_loads world_api_dump_fails
             [ {| rec_model := "GPT-X"; rec_id := "openai/gpt-x";
                  rec_context := "128" |} ])
      with (j := JObj [("data", JArr [JNum 1; JNum 2])]);
      [vm_compute; reflexivity | discriminate | reflexivity
      | vm_compute; reflexivity | reflexivity | reflexivity].
Defined.

(** The API payload file on the code: its dump raises, the error is
    logged, and the process still completes with exit code 0. *)
Lemma api_write_failure_exits_zero :
  dump_api_ok world_api_dump_fails = false /\
  outcome (fetch_openrouter_api_models toy_json_loads world_api_dump_fails)
    = inr (JObj [("data", JArr [JNum 1; JNum 2])]) /\
  last (trace (main toy_json_loads world_api_dump_fails))
    = Some (EvLog ERROR MsgApiSaveFailed) /\
  exit_code (main toy_json_loads world_api_dump_fails) = 0%Z /\
  exit_code (main toy_json_loads world_api_dump_fails) <> 1%Z.
Proof. split_and!; try (vm_compute; reflexivity). vm_compute. discriminate. Qed.

(** * Further properties of the normalizer *)

Section NormalizerMore.

Implicit Types (st : LoopState) (row : RawRow) (r : ModelRecord).
Implicit Types (L : list RawRow) (out : list ModelRecord).





Lemma loop_validated_prefix l st st' :
  loop l st = inr st' -> validated_models st `prefix_of` validated_models st'.
Proof.
  revert st. induction l as [|row l IH]; intros st; simpl.
  - by intros [= ->].
  - destruct (loop_body st row) as [e|st1] eqn:Hb; simpl; [done|].
    intros Hl%IH. etrans; [|exact Hl].
    apply loop_body_inr in Hb.
    destruct (emitted_alone row) as [r|]; subst st1; [|done].
    case_bool_decide; [done|]. by apply prefix_app_r.
Qed.

Lemma first_occurrences_keys cands k :
  k ∈ rec_key <$> first_occurrences cands <-> k ∈ rec_key <$> cands.
Proof.
  induction cands as [|r cands IH] using rev_ind; [done|].
  rewrite first_occurrences_snoc, !fmap_app, !elem_of_app, IH.
  case_bool_decide as Hk; simpl; [|done].
  rewrite elem_of_nil, list_elem_of_singleton.
  split; [tauto|]. intros [?| ->]; tauto.
Qed.

Lemma first_occurrences_length cands :
  length (first_occurrences cands) <= length cands.
Proof.
  induction cands as [|r cands IH] using rev_ind; [done|].
  rewrite first_occurrences_snoc, !length_app.
  case_bool_decide; simpl; lia.
Qed.

Lemma omap_length {A B} (f : A -> option B) (l : list A) :
  length (omap f l) <= length l.
Proof.
  induction l as [|a l IH]; [done|].
  change (omap f (a :: l))
    with (match f a with Some b => b :: omap f l | None => omap f l end).
  destruct (f a); simpl; lia.
Qed.

End NormalizerMore.


(** X2: the normalizer works as a stream: the output for a prefix of the
    input is a prefix of the output for the whole input. *)
Theorem normalizer_prefix_monotone l1 l2 out :
  validate_and_clean_models (l1 ++ l2) = inr out ->
  exists out1, validate_and_clean_models l1 = inr out1 /\ out1 `prefix_of` out.
Proof.
  unfold validate_and_clean_models. rewrite loop_app.
  destruct (loop l1 _) as [e|st1] eqn:H1; simpl; [done|].
  destruct (loop l2 st1) as [e|st2] eqn:H2; simpl; [done|].
  intros [= <-]. exists (validated_models st1). split; [done|].
  by eapply loop_validated_prefix.
Qed.

Lemma normalizer_prefix_monotone_witness :
  exists out1,
    validate_and_clean_models scenario_A = inr out1 /\
    out1 `prefix_of`
      [ {| rec_model := "GPT-X"; rec_id := "openai/gpt-x"; rec_context := "128" |};
        {| rec_model := "gpt-x"; rec_id := ""; rec_context := "128000" |} ].
Proof.
  apply (normalizer_prefix_monotone scenario_A
           [RowDict {[ "model" := PyStr "gpt-x"; "context" := PyInt 128000 ]};
            RowDict {[ "model" := PyStr "GPT-X"; "context" := PyInt 128000 ]}]).
  vm_compute. reflexivity.
Defined.

Section NormalizerShape.

Implicit Types (row : RawRow) (r : ModelRecord).

Lemma strip_py_or a b : strip (py_or (strip a) (strip b)) = py_or (strip a) (strip b).
Proof. unfold py_or. destruct (truthy (strip a)); apply strip_idem. Qed.

Lemma emitted_alone_normal row r :
  emitted_alone row = Some r -> normal_record r.
Proof.
  destruct row as [d|v]; [|by rewrite emitted_alone_row_record].
  intros (n & i & _ & _ & Ht & ->)%emitted_alone_Some.
  split_and!; simpl;
    [done | apply strip_py_or | apply strip_idem | apply clean_context_digits].
Qed.

Lemma clean_context_fixed c :
  all_chars isdigit c = true -> clean_context (PyStr c) = c.
Proof.
  intros Hd. unfold clean_context. simpl. rewrite (strip_digits _ Hd).
  destruct (truthy c) eqn:E; [|done]. by rewrite re_search_digits_fixed.
Qed.

Lemma normal_emitted_alone r :
  normal_record r -> emitted_alone (to_row r) = Some r.
Proof.
  intros (Ht & Hm & Hi & Hc). rewrite emitted_alone_row_record.
  destruct (dict_get_to_row r) as (Hgm & Hgi & Hgc).
  unfold row_record. simpl in Hgm, Hgi, Hgc. simpl. rewrite Hgm, Hgi, Hgc.
  simpl. rewrite Hm, Hi, Ht. simpl. rewrite (clean_context_fixed _ Hc).
  unfold py_or. rewrite Ht. by destruct r.
Qed.

Lemma omap_emitted_alone_normal l :
  Forall normal_record l -> omap emitted_alone (to_row <$> l) = l.
Proof.
  intros Hl. apply omap_emitted_alone_to_row.
  eapply Forall_impl; [exact Hl|]. intros r Hr.
  exists (to_row r). by apply normal_emitted_alone.
Qed.






End NormalizerShape.



(** X4: no model is lost: every row of the input that yields a record
    when it stands alone is represented in the output by a record with
    the same dedup key, and the output is no longer than the input. *)
Theorem normalizer_keeps_every_key L out :
  validate_and_clean_models L = inr out ->
  (forall row r, row ∈ L -> emitted_alone row = Some r ->
     exists r', r' ∈ out /\ rec_key r' = rec_key r) /\
  length out <= length L.
Proof.
  intros ->%validate_and_clean_models_first_occurrences. split.
  - intros row r Hin Hr.
    assert (rec_key r ∈ rec_key <$> first_occurrences (omap emitted_alone L))
      as (r' & Hk & Hr')%list_elem_of_fmap; [|by exists r'].
    apply first_occurrences_keys, list_elem_of_fmap_2, list_elem_of_omap.
    by exists row.
  - etrans; [apply first_occurrences_length | apply omap_length].
Qed.

Lemma normalizer_keeps_every_key_witness :
  (forall row r, row ∈ scenario_A -> emitted_alone row = Some r ->
     exists r', r' ∈ [ {| rec_model := "GPT-X"; rec_id := "openai/gpt-x";
                          rec_context := "128" |} ] /\
                rec_key r' = rec_key r) /\
  length [ {| rec_model := "GPT-X"; rec_id := "openai/gpt-x";
              rec_context := "128" |} ] <= length scenario_A.
Proof.
  apply (normalizer_keeps_every_key scenario_A). vm_compute. reflexivity.
Defined.

(** X5: the emitted model and id carry no surrounding whitespace:
    stripping them again changes nothing; and an emitted record with an
    empty id keeps the trimmed model name of its row. *)
Theorem emitted_fields_are_stripped L out r :
  validate_and_clean_models L = inr out -> r ∈ out ->
  strip (rec_model r) = rec_model r /\
  strip (rec_id r) = rec_id r /\
  (rec_id r = "" ->
   exists d n, RowDict d ∈ L /\ dict_get d "model" (PyStr "") = PyStr n /\
               rec_model r = strip n).
Proof.
  intros HL Hr.
  destruct (validate_and_clean_models_provenance _ _ _ HL Hr) as (d & Hd & He).
  destruct (emitted_alone_normal _ _ He) as (_ & Hm & Hi & _).
  split_and!; [done..|].
  apply emitted_alone_Some in He as (n & i & Hn & _ & Ht & ->). simpl.
  intros Hid. exists d, n. split_and!; [done..|].
  rewrite Hid in *. rewrite py_or_empty_r in *. done.
Qed.

Lemma emitted_fields_are_stripped_witness :
  let r := {| rec_model := "Llama 3"; rec_id := ""; rec_context := "8" |} in
  let L := [RowDict {[ "model" := PyStr "  Llama 3 "; "context" := PyStr "8k" ]}] in
  strip (rec_model r) = rec_model r /\
  strip (rec_id r) = rec_id r /\
  (rec_id r = "" ->
   exists d n, RowDict d ∈ L /\ dict_get d "model" (PyStr "") = PyStr n /\
               rec_model r = strip n).
Proof.
  apply (emitted_fields_are_stripped
           [RowDict {[ "model" := PyStr "  Llama 3 "; "context" := PyStr "8k" ]}]
           [ {| rec_model := "Llama 3"; rec_id := ""; rec_context := "8" |} ]).
  - vm_compute. reflexivity.
  - apply list_elem_of_here.
Defined.



(** X7: the fixed points of the normalizer: a list of records, read as
    rows, comes back unchanged exactly when every record is in normal
    form (non-empty stripped model, stripped id, digit-only context) and
    the dedup keys are pairwise distinct. *)
Theorem normalizer_fixed_points (l : list ModelRecord) :
  validate_and_clean_models (to_row <$> l) = inr l <->
  Forall normal_record l /\ NoDup (rec_key <$> l).
Proof.
  split.
  - intros Hl. split.
    + apply Forall_forall. intros r Hr.
      destruct (validate_and_clean_models_provenance _ _ _ Hl Hr)
        as (d & _ & Hd).
      by eapply emitted_alone_normal.
    + apply validate_and_clean_models_first_occurrences in Hl.
      rewrite Hl at 1. apply first_occurrences_NoDup.
  - intros [Hn Hk].
    destruct (validate_and_clean_models_total (to_row <$> l)) as [out Hout].
    { apply Forall_fmap, Forall_forall. intros r _. apply string_fields_to_row. }
    rewrite Hout. f_equal.
    apply validate_and_clean_models_first_occurrences in Hout.
    rewrite omap_emitted_alone_normal in Hout by done. subst out.
    by apply first_occurrences_NoDup_fixed.
Qed.

(** * Further properties of the effectful part *)

(** Decides membership of an event in a trace that has been run to a
    concatenation of explicit lists. *)
Ltac not_in_trace :=
  repeat (rewrite elem_of_app || rewrite elem_of_cons || rewrite elem_of_nil);
  unfold not in *; intuition (try discriminate);
  repeat match goal with
         | H : EvOpen _ = EvOpen _ |- _ => injection H as H; try discriminate H
         end.

Lemma connect_to_browser_connects {R} (s : Session R) :
  outcome (connect_to_browser s) = inr (connects s).
Proof. destruct s as [[] [] [] [] [] ? ? ? []]; reflexivity. Qed.

Lemma connect_to_browser_stop {R} (s : Session R) :
  (start_ok s = true -> connects s = false ->
   EvStop ∈ trace (connect_to_browser s)) /\
  (connects s = true \/ start_ok s = false ->
   EvStop ∉ trace (connect_to_browser s)).
Proof.
  destruct s as [[] [] [] [] [] ? ? ? []]; cbn;
    (split; [intros; try discriminate; in_trace
            | intros [?|?]; try discriminate; not_in_trace]).
Qed.

(** X8: [connect_to_browser] raises nothing and obtains a page exactly
    when the start, the CDP connection and the contexts are there and a
    page is open or can be opened; when it fails after the start it has
    called [stop], when it succeeds (or the start itself failed) it has
    not. *)
Theorem connect_to_browser_behaviour {R} (s : Session R) :
  outcome (connect_to_browser s) =
    inr (start_ok s && connect_over_cdp_ok s && has_contexts s
         && (has_open_page s || new_page_ok s)) /\
  (start_ok s = true -> outcome (connect_to_browser s) = inr false ->
   EvStop ∈ trace (connect_to_browser s)) /\
  (outcome (connect_to_browser s) = inr true \/ start_ok s = false ->
   EvStop ∉ trace (connect_to_browser s)).
Proof.
  pose proof (connect_to_browser_connects s) as Hc.
  destruct (connect_to_browser_stop s) as [Hstop Hopen].
  split_and!; [done | |].
  - intros Hs Hf. apply Hstop; [done|]. congruence.
  - intros [Ht | Hs]; apply Hopen; [left; congruence | by right].
Qed.

Lemma scrape_outcome w :
  outcome (scrape_openrouter_models w) =
  inr (let s := scrape_session w in
       if connects s && goto_ok s then
         match evaluate_result s with
         | Some rows =>
             match validate_and_clean_models rows with
             | inr models => models
             | inl _ => []
             end
         | None => []
         end
       else []).
Proof.
  unfold scrape_openrouter_models.
  destruct (scrape_session w) as [a b c d e f g ev st].
  destruct ev as [[|row rows]|];
    [| destruct (validate_and_clean_models (row :: rows)) as [x|models] eqn:Hv |];
    destruct a, b, c, d, e, f, g, st; cbn; rewrite ?Hv; reflexivity.
Qed.

Lemma fetch_outcome json_loads w :
  outcome (fetch_openrouter_api_models json_loads w) =
  inr (let s := fetch_session w in
       if connects s && goto_ok s then
         match evaluate_result s with
         | Some text =>
             if truthy text then
               match json_loads text with
               | Some api_data => api_data
               | None => JObj []
               end
             else JObj []
         | None => JObj []
         end
       else JObj []).
Proof.
  unfold fetch_openrouter_api_models.
  destruct (fetch_session w) as [a b c d e f g ev st].
  destruct ev as [text|];
    [destruct (truthy text) eqn:Ht; [destruct (json_loads text) as [j|] eqn:Hj|]|];
    destruct a, b, c, d, e, f, st; cbn; rewrite ?Ht; cbn; rewrite ?Hj; reflexivity.
Qed.

(** X9: the scraper raises nothing.  It returns the empty list when the
    connection fails, when the navigation fails, when the evaluation of
    the in-page script raises, and when the normalizer raises; otherwise
    it returns the output of the normalizer on the rows of the script,
    whatever the outcomes of the wait for the table rows and of [stop]. *)
Theorem scrape_openrouter_models_result w :
  let s := scrape_session w in
  (exists models, outcome (scrape_openrouter_models w) = inr models) /\
  (connects s = false \/ goto_ok s = false \/ evaluate_result s = None ->
   outcome (scrape_openrouter_models w) = inr []) /\
  (forall rows e,
     evaluate_result s = Some rows ->
     validate_and_clean_models rows = inl e ->
     outcome (scrape_openrouter_models w) = inr []) /\
  (forall rows models,
     connects s = true -> goto_ok s = true ->
     evaluate_result s = Some rows ->
     validate_and_clean_models rows = inr models ->
     outcome (scrape_openrouter_models w) = inr models).
Proof.
  intros s. rewrite scrape_outcome. cbv zeta. fold s. split_and!.
  - by eexists.
  - intros [-> | [-> | ->]]; [done | by rewrite andb_false_r |].
    by destruct (connects s && goto_ok s).
  - intros rows e -> ->. by destruct (connects s && goto_ok s).
  - by intros rows models -> -> -> ->.
Qed.


Lemma stop_in_finally ok :
  EvStop ∈ trace (try_except (call EvStop ok)
                             (fun _ => log WARNING MsgStopFailed)).
Proof. destruct ok; cbn; in_trace. Qed.

(** X11: the automation session is released on every path: in a run of
    the scraper, and in a run of the fetcher, [playwright.stop()] is
    called exactly when [async_playwright().start()] had returned. *)
Theorem session_always_released json_loads w :
  (start_ok (scrape_session w) = true <->
   EvStop ∈ trace (scrape_openrouter_models w)) /\
  (start_ok (fetch_session w) = true <->
   EvStop ∈ trace (fetch_openrouter_api_models json_loads w)).
Proof.
  split.
  - unfold scrape_openrouter_models.
    set (s := scrape_session w).
    rewrite trace_bind, connect_to_browser_connects.
    destruct (connect_to_browser_stop s) as [Hstop Hopen].
    destruct (connects s) eqn:Hc; cbn match.
    + assert (start_ok s = true) as ->.
      { unfold connects in Hc. by destruct (start_ok s). }
      split; [intros _|done]. rewrite trace_bind, trace_try_finally.
      rewrite !elem_of_app. right. left. right. apply stop_in_finally.
    + rewrite elem_of_app. split.
      * intros Hs. left. by apply Hstop.
      * intros [Hin | Hin].
        -- destruct (start_ok s) eqn:Hs; [done|]. destruct Hopen; auto.
        -- exfalso. revert Hin. cbn. not_in_trace.
  - unfold fetch_openrouter_api_models.
    set (s := fetch_session w).
    rewrite trace_bind, connect_to_browser_connects.
    destruct (connect_to_browser_stop s) as [Hstop Hopen].
    destruct (connects s) eqn:Hc; cbn match.
    + assert (start_ok s = true) as ->.
      { unfold connects in Hc. by destruct (start_ok s). }
      split; [intros _|done]. rewrite trace_try_finally.
      rewrite !elem_of_app. right. right. apply stop_in_finally.
    + rewrite elem_of_app. split.
      * intros Hs. left. by apply Hstop.
      * intros [Hin | Hin].
        -- destruct (start_ok s) eqn:Hs; [done|]. destruct Hopen; auto.
        -- exfalso. revert Hin. cbn. not_in_trace.
Qed.

(** The count of the API stage never ends the run: whatever the payload
    and the outcome of the write, the guarded block returns. *)
Lemma api_block_outcome w api_models :
  outcome
    (try_except
       (write_json OUTPUT_MODELS_FILE (PJson api_models)
                   (open_api_ok w) (dump_api_ok w) ;;
        do! data_list := get_data api_models in
        log SUCCESS (MsgApiSaved OUTPUT_MODELS_FILE) ;;
        do! n := py_len data_list in
        log INFO (MsgApiCount n))
       (fun _ => log ERROR MsgApiSaveFailed)) = inr tt.
Proof.
  unfold write_json, get_data, py_len.
  destruct (open_api_ok w), (dump_api_ok w); try reflexivity.
  destruct api_models as [| | | | |items]; try reflexivity.
  destruct (default (JArr []) (assoc "data" items)); reflexivity.
Qed.

(** X12: the exit code of [main]: 1 when the scraper returns no record
    or when the record file cannot be written, 0 in every other case;
    nothing that happens in the API stage changes it. *)
Theorem main_exit_code json_loads w :
  exit_code (main json_loads w) =
  match outcome (scrape_openrouter_models w) with
  | inr (_ :: _) =>
      if makedirs_ok w && open_records_ok w && dump_records_ok w
      then 0%Z else 1%Z
  | _ => 1%Z
  end.
Proof.
  pose proof (scrape_outcome w) as Hs. cbv zeta in Hs.
  destruct (outcome (scrape_openrouter_models w)) as [x|models] eqn:Ho;
    [done|]. clear Hs.
  unfold exit_code, main. repeat run_step. rewrite Ho.
  destruct models as [|model rest]; [by repeat run_step|].
  repeat run_step. unfold call, write_json at 1.
  destruct (makedirs_ok w), (open_records_ok w), (dump_records_ok w);
    try (by repeat run_step).
  repeat run_step. rewrite log_preview_outcome. repeat run_step.
  rewrite fetch_outcome. cbv zeta. repeat run_step.
  match goal with |- context [json_truthy ?j] => destruct (json_truthy j) end.
  - rewrite api_block_outcome. done.
  - done.
Qed.

Lemma session_event_dump_of_results json_loads w url e :
  session_event url e -> dump_of_results json_loads w e.
Proof. by destruct e. Qed.

Lemma preview_event_dump_of_results json_loads w e :
  preview_event e -> dump_of_results json_loads w e.
Proof. by destruct e. Qed.

Lemma main_only_dump_of_results json_loads w :
  only (dump_of_results json_loads w) (main json_loads w).
Proof.
  unfold main.
  repeat first
    [ apply (only_impl _ _ _
               (session_event_dump_of_results json_loads w OPENROUTER_URL)),
        scrape_openrouter_models_only
    | apply (only_impl _ _ _
               (session_event_dump_of_results json_loads w OPENROUTER_API_URL)),
        fetch_openrouter_api_models_only
    | apply (only_impl _ _ _ (preview_event_dump_of_results json_loads w)),
        log_preview_only
    | lazymatch goal with
      | |- only _ (if json_truthy ?a then _ else _) =>
          destruct (json_truthy a) eqn:?
      | |- only _ (write_json _ _ _ _) => unfold write_json
      | |- only _ (get_data _) => unfold get_data
      | |- only _ (py_len _) => unfold py_len
      end
    | only_step ];
    try done.
  - left. split; [done|]. eexists. split_and!; [done| |done].
    intros ->. discriminate.
  - right. split; [done|]. eexists. by split_and!.
Qed.

(** X13: what [main] writes: a dump into the record file holds the
    list the scraper returned, which is never empty; a dump into the API
    payload file holds the document the fetcher returned, which is never
    falsy (no empty object, empty array, null, zero or empty string); and
    [main] dumps into no other file. *)
Theorem main_dumps_results json_loads w path p :
  EvDump path p ∈ trace (main json_loads w) ->
  (path = OUTPUT_FILE /\
   exists models, p = PRecords models /\ models <> [] /\
     outcome (scrape_openrouter_models w) = inr models) \/
  (path = OUTPUT_MODELS_FILE /\
   exists j, p = PJson j /\ json_truthy j = true /\
     outcome (fetch_openrouter_api_models json_loads w) = inr j).
Proof.
  intros Hin.
  pose proof (main_only_dump_of_results json_loads w) as Hall.
  unfold only in Hall. rewrite Forall_forall in Hall.
  exact (Hall _ Hin).
Qed.

Lemma main_dumps_results_witness :
  (OUTPUT_MODELS_FILE = OUTPUT_FILE /\
   exists models,
     PJson (JObj [("data", JArr [JNum 1; JNum 2])]) = PRecords models /\
     models <> [] /\
     outcome (scrape_openrouter_models world_ok) = inr models) \/
  (OUTPUT_MODELS_FILE = OUTPUT_MODELS_FILE /\
   exists j,
     PJson (JObj [("data", JArr [JNum 1; JNum 2])]) = PJson j /\
     json_truthy j = true /\
     outcome (fetch_openrouter_api_models toy_json_loads world_ok) = inr j).
Proof.
  apply (main_dumps_results toy_json_loads world_ok).
  apply list_elem_of_In. vm_compute.
  repeat (first [left; reflexivity | right]).
Defined.

Lemma last_app_cons {A} (l1 l2 : list A) x :
  last (l1 ++ x :: l2) = last (x :: l2).
Proof.
  induction l1 as [|y l1 IH]; [done|]. simpl.
  destruct (l1 ++ x :: l2) eqn:E; [by destruct l1|]. exact IH.
Qed.

Lemma last_cons_cons {A} (l : list A) x y : last (x :: y :: l) = last (y :: l).
Proof. done. Qed.

Lemma last_cons_app {A} (l1 l2 : list A) x y :
  last (x :: (l1 ++ y :: l2)) = last (y :: l2).
Proof. apply (last_app_cons (x :: l1)). Qed.

(** Finds the last event of a trace that has been run to a
    concatenation. *)
Ltac last_event :=
  rewrite ?app_nil_r;
  repeat first [ rewrite last_cons_app | rewrite last_app_cons
               | rewrite last_cons_cons ];
  reflexivity.

Lemma scrape_trace_no_open w path :
  EvOpen path ∉ trace (scrape_openrouter_models w).
Proof.
  intros Hin. pose proof (scrape_openrouter_models_only w) as Hall.
  unfold only in Hall. rewrite Forall_forall in Hall. exact (Hall _ Hin).
Qed.

(** Runs [main] up to the API stage, given the outcome of the scraper
    and of the writes of the record file. *)
Ltac run_to_api_stage Hs Hm Ho Hd :=
  unfold main; repeat run_step; rewrite Hs; repeat run_step;
  unfold call, write_json at 1; rewrite Hm, Ho, Hd; repeat run_step;
  rewrite log_preview_outcome; repeat run_step.

(** X14: the API payload file is opened only in a run that has dumped
    the record file before: the trace splits at a dump of the record file
    with no opening of the API payload file before it. *)
Theorem api_file_after_record_file json_loads w :
  EvOpen OUTPUT_MODELS_FILE ∈ trace (main json_loads w) ->
  exists models t1 t2,
    trace (main json_loads w)
      = t1 ++ EvDump OUTPUT_FILE (PRecords models) :: t2 /\
    outcome (scrape_openrouter_models w) = inr models /\
    EvOpen OUTPUT_MODELS_FILE ∉ t1.
Proof.
  pose proof (scrape_outcome w) as Hs. cbv zeta in Hs.
  destruct (outcome (scrape_openrouter_models w)) as [x|models] eqn:Ho;
    [done|]. clear Hs.
  pose proof (scrape_trace_no_open w OUTPUT_MODELS_FILE) as Hno.
  destruct models as [|model rest].
  { unfold main. repeat run_step. rewrite Ho. repeat run_step.
    intros Hin. exfalso. revert Hin. not_in_trace. }
  destruct (makedirs_ok w) eqn:Hm; [destruct (open_records_ok w) eqn:Hop;
    [destruct (dump_records_ok w) eqn:Hd|]|].
  - intros _. exists (model :: rest).
    exists ([EvLog INFO MsgRule; EvLog INFO MsgStart; EvLog INFO MsgRule]
            ++ trace (scrape_openrouter_models w)
            ++ [EvMakedirs OUTPUT_DIR; EvOpen OUTPUT_FILE]).
    eexists. split_and!; [|done|].
    + run_to_api_stage Ho Hm Hop Hd.
      rewrite <- !app_assoc. simpl. reflexivity.
    + not_in_trace.
  - unfold main. repeat run_step. rewrite Ho. repeat run_step.
    unfold call, write_json. rewrite Hm, Hop, Hd. repeat run_step.
    intros Hin. exfalso. revert Hin. not_in_trace.
  - unfold main. repeat run_step. rewrite Ho. repeat run_step.
    unfold call, write_json. rewrite Hm, Hop. repeat run_step.
    intros Hin. exfalso. revert Hin. not_in_trace.
  - unfold main. repeat run_step. rewrite Ho. repeat run_step.
    unfold call, write_json. rewrite Hm. repeat run_step.
    intros Hin. exfalso. revert Hin. not_in_trace.
Qed.

Lemma api_file_after_record_file_witness :
  exists models t1 t2,
    trace (main toy_json_loads world_ok)
      = t1 ++ EvDump OUTPUT_FILE (PRecords models) :: t2 /\
    outcome (scrape_openrouter_models world_ok) = inr models /\
    EvOpen OUTPUT_MODELS_FILE ∉ t1.
Proof.
  apply (api_file_after_record_file toy_json_loads world_ok).
  apply list_elem_of_In. vm_compute.
  repeat (first [left; reflexivity | right]).
Defined.

(** X15: a payload that is written and still reported as failed: when
    the API stage is reached with a truthy payload on which the count
    raises (a payload that is not an object, such as a JSON array, or an
    object whose ["data"] has no length) and the file operations succeed,
    the payload is dumped completely and the last event of the run is the
    error message of the failed save; the exit code is 0. *)
Theorem api_payload_written_but_reported_failed json_loads w model rest j :
  outcome (scrape_openrouter_models w) = inr (model :: rest) ->
  makedirs_ok w && open_records_ok w && dump_records_ok w = true ->
  outcome (fetch_openrouter_api_models json_loads w) = inr j ->
  json_truthy j = true -> count_raises j = true ->
  open_api_ok w && dump_api_ok w = true ->
  EvDump OUTPUT_MODELS_FILE (PJson j) ∈ trace (main json_loads w) /\
  last (trace (main json_loads w)) = Some (EvLog ERROR MsgApiSaveFailed) /\
  exit_code (main json_loads w) = 0%Z.
Proof.
  intros Hs Hok Hj Ht Hc Hapi.
  apply andb_true_iff in Hok as [[Hm Ho]%andb_true_iff Hd].
  apply andb_true_iff in Hapi as [Hao Had].
  split_and!.
  - run_to_api_stage Hs Hm Ho Hd. rewrite Hj. repeat run_step.
    rewrite Ht. repeat run_step. unfold write_json. rewrite Hao, Had.
    repeat run_step. in_trace.
  - run_to_api_stage Hs Hm Ho Hd. rewrite Hj. repeat run_step.
    rewrite Ht. repeat run_step. unfold write_json. rewrite Hao, Had.
    repeat run_step. unfold get_data, py_len.
    destruct j as [| | | | |items]; simpl in Hc; repeat run_step;
      try last_event.
    destruct (default (JArr []) (assoc "data" items)); try discriminate Hc;
      repeat run_step; last_event.
  - unfold exit_code. run_to_api_stage Hs Hm Ho Hd. rewrite Hj.
    repeat run_step. rewrite Ht. by rewrite api_block_outcome.
Qed.

Lemma api_payload_written_but_reported_failed_witness :
  EvDump OUTPUT_MODELS_FILE (PJson (JArr [JNum 1; JNum 2]))
    ∈ trace (main toy_json_loads world_array_payload) /\
  last (trace (main toy_json_loads world_array_payload))
    = Some (EvLog ERROR MsgApiSaveFailed) /\
  exit_code (main toy_json_loads world_array_payload) = 0%Z.
Proof.
  apply (api_payload_written_but_reported_failed toy_json_loads
           world_array_payload
           {| rec_model := "GPT-X"; rec_id := "openai/gpt-x";
              rec_context := "128" |} []);
    vm_compute; reflexivity.
Defined.

(** X16: the count of the summary: when the API stage is reached with a
    non-empty object and the file operations succeed, the run ends with
    the opening and the complete dump of the payload, the success message
    and the count, which is the length of the array under ["data"], and 0
    when the object has no ["data"]. *)
Theorem api_count_is_data_length json_loads w model rest items data :
  outcome (scrape_openrouter_models w) = inr (model :: rest) ->
  makedirs_ok w && open_records_ok w && dump_records_ok w = true ->
  outcome (fetch_openrouter_api_models json_loads w) = inr (JObj items) ->
  items <> [] ->
  open_api_ok w && dump_api_ok w = true ->
  assoc "data" items = Some (JArr data) \/
  (assoc "data" items = None /\ data = []) ->
  [ EvOpen OUTPUT_MODELS_FILE;
    EvDump OUTPUT_MODELS_FILE (PJson (JObj items));
    EvLog SUCCESS (MsgApiSaved OUTPUT_MODELS_FILE);
    EvLog INFO (MsgApiCount (length data)) ]
  `suffix_of` trace (main json_loads w).
Proof.
  intros Hs Hok Hj Hne Hapi Hdata.
  apply andb_true_iff in Hok as [[Hm Ho]%andb_true_iff Hd].
  apply andb_true_iff in Hapi as [Hao Had].
  assert (default (JArr []) (assoc "data" items) = JArr data) as Hdef.
  { by destruct Hdata as [-> | [-> ->]]. }
  run_to_api_stage Hs Hm Ho Hd. rewrite Hj. repeat run_step.
  destruct items as [|item items']; [done|]. cbn [json_truthy].
  repeat run_step. unfold write_json. rewrite Hao, Had. repeat run_step.
  unfold get_data. rewrite Hdef. repeat run_step. rewrite ?app_nil_r.
  repeat first [ reflexivity | apply suffix_cons_r | apply suffix_app_r ].
Qed.


Lemma api_count_is_data_length_witness :
  [ EvOpen OUTPUT_MODELS_FILE;
    EvDump OUTPUT_MODELS_FILE (PJson (JObj [("data", JArr [JNum 1; JNum 2])]));
    EvLog SUCCESS (MsgApiSaved OUTPUT_MODELS_FILE);
    EvLog INFO (MsgApiCount (length [JNum 1; JNum 2])) ]
  `suffix_of` trace (main toy_json_loads world_ok).
Proof.
  apply (api_count_is_data_length toy_json_loads world_ok
           {| rec_model := "GPT-X"; rec_id := "openai/gpt-x";
              rec_context := "128" |} []);
    [ vm_compute; reflexivity | reflexivity | vm_compute; reflexivity
    | discriminate | reflexivity | left; reflexivity ].
Defined.

(** * The in-page script and its composition with the normalizer *)

Section ScriptFacts.

Implicit Types (st : JsState) (cells : list Cell) (r : ModelRecord).

Lemma for_each_row_row_object st cells :
  for_each_row st cells =
  match row_object cells with
  | Some r =>
      if bool_decide (rec_key r ∈ js_seenModels st) then st
      else {| js_models := js_models st ++ [r];
              js_seenModels := js_seenModels st ∪ {[ rec_key r ]} |}
  | None => st
  end.
Proof.
  unfold row_object, for_each_row.
  destruct (length cells <? 4)%nat; [done|].
  destruct (cells !! 0%nat) as [firstCell|]; [|done].
  destruct (cells !! 3%nat) as [contextCell|]; [|done].
  set (name0 := match query_a firstCell with
                | Some nameLink => element_text nameLink | None => "" end).
  set (id := match query_code firstCell with
             | Some codeElement => element_text codeElement | None => "" end).
  set (name := if negb (truthy name0) && truthy id then id else name0).
  set (ctx := match query_span contextCell with
              | Some contextSpan => _ | None => "" end).
  destruct (truthy (lower (py_or id name))) eqn:Hk; simpl; [|done].
  match goal with
  | |- context [@bool_decide ?P ?dec] =>
      lazymatch P with
      | _ ∈ ∅ => destruct (@bool_decide_reflect P dec) as [Hin|_];
                 [by apply not_elem_of_empty in Hin|]
      end
  end.
  unfold rec_key; simpl.
  rewrite !py_or_empty_r, py_or_absorb.
  by case_bool_decide.
Qed.

Lemma for_each_row_inv st cells cands :
  js_inv st cands ->
  js_inv (for_each_row st cells) (cands ++ omap row_object [cells]).
Proof.
  intros [Hv Hs]. rewrite for_each_row_row_object. simpl.
  destruct (row_object cells) as [r|]; simpl.
  2:{ rewrite app_nil_r. by split. }
  split.
  - rewrite first_occurrences_snoc.
    rewrite (bool_decide_ext _ _ (Hs (rec_key r))).
    case_bool_decide; simpl; [by rewrite app_nil_r | by rewrite Hv].
  - intros k. rewrite fmap_app, elem_of_app. simpl.
    rewrite list_elem_of_singleton, <- Hs.
    case_bool_decide; simpl.
    + split; [tauto | intros [?| ->]; done].
    + by rewrite elem_of_union, elem_of_singleton.
Qed.

Lemma fold_for_each_row_inv rows st cands :
  js_inv st cands ->
  js_inv (fold_left for_each_row rows st) (cands ++ omap row_object rows).
Proof.
  revert st cands. induction rows as [|cells rows IH]; intros st cands Hinv.
  - simpl. by rewrite app_nil_r.
  - simpl fold_left.
    pose proof (IH _ _ (for_each_row_inv st cells cands Hinv)) as H.
    simpl in H. simpl.
    destruct (row_object cells); simpl in *; [|by rewrite app_nil_r in H].
    by rewrite <- app_assoc in H.
Qed.

Lemma extract_models_first_occurrences rows :
  extract_models (Some rows) = first_occurrences (omap row_object rows).
Proof.
  unfold extract_models.
  assert (js_inv {| js_models := []; js_seenModels := ∅ |} []) as Hinit.
  { split; [done|]. intros k. simpl. set_solver. }
  by destruct (fold_for_each_row_inv rows _ _ Hinit) as [-> _].
Qed.

End ScriptFacts.

Section ScriptShape.

Implicit Types (cells : list Cell) (r : ModelRecord).

Lemma row_object_Some cells r :
  row_object cells = Some r ->
  exists firstCell contextCell,
    4 <= length cells /\
    cells !! 0%nat = Some firstCell /\ cells !! 3%nat = Some contextCell /\
    truthy (rec_model r) = true /\
    rec_context r = cell_context contextCell.
Proof.
  unfold row_object, for_each_row.
  destruct (length cells <? 4)%nat eqn:Hlen; [done|].
  apply Nat.ltb_ge in Hlen.
  destruct (cells !! 0%nat) as [firstCell|]; [|done].
  destruct (cells !! 3%nat) as [contextCell|]; [|done].
  set (name0 := match query_a firstCell with
                | Some nameLink => element_text nameLink | None => "" end).
  set (id := match query_code firstCell with
             | Some codeElement => element_text codeElement | None => "" end).
  set (name := if negb (truthy name0) && truthy id then id else name0).
  destruct (truthy (lower (py_or id name))) eqn:Hk; simpl; [|done].
  match goal with
  | |- context [@bool_decide ?P ?dec] =>
      destruct (@bool_decide_reflect P dec) as [Hin|_];
        [by apply not_elem_of_empty in Hin|]
  end.
  simpl. intros [= <-]. exists firstCell, contextCell. simpl.
  split_and!; try done.
  - rewrite truthy_lower, truthy_py_or in Hk.
    rewrite py_or_empty_r, truthy_py_or. subst name.
    destruct (truthy name0) eqn:Hn, (truthy id) eqn:Hi; simpl in *;
      rewrite ?Hn, ?Hi; first [done | congruence].
  - apply py_or_empty_r.
Qed.

Lemma row_object_short cells : length cells < 4 -> row_object cells = None.
Proof.
  intros Hlen. unfold row_object, for_each_row.
  by apply Nat.ltb_lt in Hlen as ->.
Qed.



Lemma js_trim_end_cons c s :
  js_trim_end (String c s) =
  match js_trim_end s with
  | EmptyString => if js_whitespace c then EmptyString else String c EmptyString
  | r => String c r
  end.
Proof. done. Qed.




Lemma isdigit_not_js_whitespace c : isdigit c = true -> js_whitespace c = false.
Proof.
  destruct c as [[] [] [] [] [] [] [] []]; vm_compute; congruence.
Qed.

Lemma js_trim_end_no_space s :
  all_chars (fun c => negb (js_whitespace c)) s = true -> js_trim_end s = s.
Proof.
  induction s as [|c s IH]; [done|]. rewrite js_trim_end_cons. simpl.
  intros [Hc Hs]%andb_true_iff. rewrite (IH Hs).
  destruct s; [|done]. by destruct (js_whitespace c).
Qed.

Lemma js_trim_digits s : all_chars isdigit s = true -> js_trim s = s.
Proof.
  intros Hd. unfold js_trim.
  assert (all_chars (fun c => negb (js_whitespace c)) s = true) as Hns.
  { eapply all_chars_impl; [|exact Hd].
    intros c Hc. by rewrite (isdigit_not_js_whitespace c Hc). }
  assert (js_trim_start s = s) as ->.
  { destruct s as [|c s]; simpl in *; [done|].
    apply andb_true_iff in Hns as [Hc _]. apply negb_true_iff in Hc.
    by rewrite Hc. }
  by apply js_trim_end_no_space.
Qed.

Lemma remove_commas_digits s :
  all_chars digit_or_comma s = true ->
  all_chars isdigit (remove_commas s) = true.
Proof.
  induction s as [|c s IH]; simpl; [done|].
  intros [Hc Hs]%andb_true_iff. unfold digit_or_comma, is_comma in Hc.
  destruct (Ascii.eqb c ","); simpl; [by apply IH|].
  rewrite orb_false_r in Hc. by rewrite Hc, IH.
Qed.

Lemma rec_key_clean_record r : rec_key (clean_record r) = rec_key r.
Proof. done. Qed.

Lemma emitted_alone_to_row_stripped r :
  truthy (rec_model r) = true ->
  strip (rec_model r) = rec_model r -> strip (rec_id r) = rec_id r ->
  emitted_alone (to_row r) = Some (clean_record r).
Proof.
  intros Ht Hm Hi. rewrite emitted_alone_row_record.
  destruct (dict_get_to_row r) as (Hgm & Hgi & Hgc).
  unfold row_record. simpl in Hgm, Hgi, Hgc. simpl. rewrite Hgm, Hgi, Hgc.
  simpl. rewrite Hm, Hi, Ht. simpl.
  unfold clean_record, py_or. by rewrite Ht.
Qed.

Lemma extract_models_subseteq rows r :
  r ∈ extract_models (Some rows) ->
  exists cells, cells ∈ rows /\ row_object cells = Some r.
Proof.
  rewrite extract_models_first_occurrences.
  intros Hr%first_occurrences_subseteq.
  by apply list_elem_of_omap in Hr.
Qed.

Lemma extract_models_NoDup document :
  NoDup (rec_key <$> extract_models document).
Proof.
  destruct document as [rows|]; [|constructor].
  rewrite extract_models_first_occurrences. apply first_occurrences_NoDup.
Qed.

Lemma extract_models_truthy document r :
  r ∈ extract_models document -> truthy (rec_model r) = true.
Proof.
  destruct document as [rows|]; [|by intros ?%elem_of_nil].
  intros (cells & _ & Hr)%extract_models_subseteq.
  by apply row_object_Some in Hr as (? & ? & _ & _ & _ & Ht & _).
Qed.

End ScriptShape.


(** X18: a row with fewer than four cells contributes nothing to the
    script's result, wherever it stands in the table; and a page without
    a table gives the empty result. *)
Theorem short_rows_are_skipped rows1 cells rows2 :
  length cells < 4 ->
  extract_models (Some (rows1 ++ cells :: rows2)) =
  extract_models (Some (rows1 ++ rows2)) /\
  extract_models None = [].
Proof.
  intros Hlen. split; [|done].
  rewrite !extract_models_first_occurrences, !omap_app. simpl.
  by rewrite (row_object_short cells Hlen).
Qed.

Lemma short_rows_are_skipped_witness :
  extract_models
    (Some ([listing_row "GPT-X" "openai/gpt-x" "128,000"]
           ++ [empty_cell; empty_cell; empty_cell]
           :: [listing_row "Llama" "" "8,192"])) =
  extract_models
    (Some ([listing_row "GPT-X" "openai/gpt-x" "128,000"]
           ++ [listing_row "Llama" "" "8,192"])) /\
  extract_models None = [].
Proof.
  apply (short_rows_are_skipped
           [listing_row "GPT-X" "openai/gpt-x" "128,000"]
           [empty_cell; empty_cell; empty_cell]
           [listing_row "Llama" "" "8,192"]).
  simpl. lia.
Defined.

(** X19: on the rows the in-page script returns, the normalizer cannot
    raise: when the scraper connects, navigates and evaluates the script,
    its result is the output of the normalizer on the script's result,
    with pairwise distinct dedup keys and no more records than the script
    returned objects. *)
Theorem scraper_on_script_result w document :
  evaluate_result (scrape_session w) = Some (js_result document) ->
  connects (scrape_session w) = true ->
  goto_ok (scrape_session w) = true ->
  exists out,
    validate_and_clean_models (js_result document) = inr out /\
    outcome (scrape_openrouter_models w) = inr out /\
    NoDup (rec_key <$> out) /\
    length out <= length (extract_models document).
Proof.
  intros Hev Hc Hg.
  destruct (validate_and_clean_models_total (js_result document))
    as [out Hout].
  { apply Forall_fmap, Forall_forall. intros r _. apply string_fields_to_row. }
  exists out. split_and!; [done | | |].
  - rewrite scrape_outcome. cbv zeta. by rewrite Hc, Hg, Hev, Hout.
  - apply validate_and_clean_models_first_occurrences in Hout as ->.
    apply first_occurrences_NoDup.
  - apply validate_and_clean_models_first_occurrences in Hout as ->.
    etrans; [apply first_occurrences_length|].
    etrans; [apply omap_length|]. unfold js_result. by rewrite length_fmap.
Qed.

Lemma scraper_on_script_result_witness :
  exists out,
    validate_and_clean_models (js_result listing_page) = inr out /\
    outcome (scrape_openrouter_models
               {| scrape_session := ok_session (js_result listing_page);
                  fetch_session := ok_session data_document;
                  makedirs_ok := true; open_records_ok := true;
                  dump_records_ok := true;
                  open_api_ok := true; dump_api_ok := true |}) = inr out /\
    NoDup (rec_key <$> out) /\
    length out <= length (extract_models listing_page).
Proof.
  apply (scraper_on_script_result
           {| scrape_session := ok_session (js_result listing_page);
              fetch_session := ok_session data_document;
              makedirs_ok := true; open_records_ok := true;
              dump_records_ok := true;
              open_api_ok := true; dump_api_ok := true |} listing_page);
    reflexivity.
Defined.

(** X20: the context of the table, end to end: every record the
    normalizer emits on the script's result comes from a table row whose
    fourth cell gave the context; and when the text of the [span] of that
    cell holds digits and commas only, the emitted context is that text
    with the commas removed (all its digits, not only the first group). *)
Theorem context_through_script_and_normalizer document out r :
  validate_and_clean_models (js_result document) = inr out -> r ∈ out ->
  exists rows cells contextCell,
    document = Some rows /\ cells ∈ rows /\
    cells !! 3%nat = Some contextCell /\
    rec_context r = clean_context (PyStr (cell_context contextCell)) /\
    (forall contextSpan,
       query_span contextCell = Some contextSpan ->
       all_chars digit_or_comma (element_text contextSpan) = true ->
       rec_context r = remove_commas (element_text contextSpan)).
Proof.
  intros Hout Hr.
  destruct (validate_and_clean_models_provenance _ _ _ Hout Hr)
    as (d & Hd & He).
  unfold js_result in Hd. apply list_elem_of_fmap in Hd as (r0 & Hrow & Hr0).
  destruct document as [rows|]; [|by apply elem_of_nil in Hr0].
  apply extract_models_subseteq in Hr0 as (cells & Hcells & Hobj).
  apply row_object_Some in Hobj
    as (firstCell & contextCell & _ & _ & H3 & _ & Hctx).
  exists rows, cells, contextCell.
  assert (rec_context r = clean_context (PyStr (cell_context contextCell)))
    as Hrc.
  { apply emitted_alone_Some in He as (n & i & _ & _ & _ & ->). simpl.
    destruct (dict_get_to_row r0) as (_ & _ & Hgc).
    rewrite <- Hrow in Hgc. simpl in Hgc. by rewrite Hgc, Hctx. }
  split_and!; [done..|].
  intros contextSpan Hspan Hdc. rewrite Hrc. unfold cell_context.
  rewrite Hspan.
  pose proof (remove_commas_digits _ Hdc) as Hd.
  rewrite (js_trim_digits _ Hd). by apply clean_context_fixed.
Qed.

Lemma context_through_script_and_normalizer_witness :
  let r := {| rec_model := "GPT-X"; rec_id := "openai/gpt-x";
              rec_context := "128000" |} in
  exists rows cells contextCell,
    listing_page = Some rows /\ cells ∈ rows /\
    cells !! 3%nat = Some contextCell /\
    rec_context r = clean_context (PyStr (cell_context contextCell)) /\
    (forall contextSpan,
       query_span contextCell = Some contextSpan ->
       all_chars digit_or_comma (element_text contextSpan) = true ->
       rec_context r = remove_commas (element_text contextSpan)).
Proof.
  apply (context_through_script_and_normalizer listing_page
           [ {| rec_model := "GPT-X"; rec_id := "openai/gpt-x";
                rec_context := "128000" |};
             {| rec_model := "Llama"; rec_id := ""; rec_context := "8192" |} ]).
  - vm_compute. reflexivity.
  - apply list_elem_of_here.
Defined.

(** X21: after the script, the normalizer only cleans contexts: when
    the model and id of the script's objects carry no whitespace that
    Python would strip, the normalizer returns the script's objects in
    the same order, none dropped, each with its context cleaned. *)
Theorem normalizer_after_script document :
  Forall (fun r => strip (rec_model r) = rec_model r /\
                   strip (rec_id r) = rec_id r)
         (extract_models document) ->
  validate_and_clean_models (js_result document)
  = inr (clean_record <$> extract_models document).
Proof.
  intros Hstripped.
  pose proof (extract_models_truthy document) as Hshape.
  destruct (validate_and_clean_models_total (js_result document))
    as [out Hout].
  { apply Forall_fmap, Forall_forall. intros r _. apply string_fields_to_row. }
  rewrite Hout. f_equal.
  apply validate_and_clean_models_first_occurrences in Hout as ->.
  assert (omap emitted_alone (js_result document)
          = clean_record <$> extract_models document) as ->.
  { unfold js_result. revert Hstripped Hshape.
    induction (extract_models document) as [|r l IH]; [done|].
    intros [[Hm Hi] Hl]%Forall_cons Hshape.
    rewrite !fmap_cons. cbn [omap list_omap].
    rewrite (emitted_alone_to_row_stripped r); [|by apply Hshape; left|done..].
    f_equal. apply IH; [done|]. intros r' Hr'. apply Hshape. by right. }
  pose proof (extract_models_NoDup document) as Hnodup.
  apply first_occurrences_NoDup_fixed.
  rewrite <- list_fmap_compose.
  assert ((rec_key ∘ clean_record) <$> extract_models document
          = rec_key <$> extract_models document) as ->; [|done].
  apply list_fmap_ext. intros i r _. apply rec_key_clean_record.
Qed.

Lemma normalizer_after_script_witness :
  validate_and_clean_models (js_result listing_page)
  = inr (clean_record <$> extract_models listing_page).
Proof.
  apply (normalizer_after_script listing_page).
  vm_compute. repeat (apply Forall_cons_2 || apply Forall_nil_2);
    split; reflexivity.
Defined.
